(** * libnativeloader: the class-loader namespace policy
       of [library_namespaces.cpp]

    A shallow embedding of [android::nativeloader::LibraryNamespaces]
    (src/libnativeloader/library_namespaces.cpp): the origin classifier
    [GetApkOriginFromDexPath], the bootstrap [Initialize] and
    [InitPublicNamespace], the registry lookups
    [FindNamespaceByClassLoader] and [FindParentNamespaceByClassLoader], and
    the policy engine [Create].

    The dynamic linker, the native bridge and the public-library lists are
    collaborators of the file; they are interfaces here ([Linker],
    [PublicLibraries]).  Every effectful primitive call is recorded, with its
    result, in the process's call history, and a primitive may answer
    according to that history. *)

From Stdlib Require Import String Ascii List Bool Arith NArith Lia.
Import ListNotations.
Local Open Scope string_scope.

(* ================================================================= *)
(** ** Strings *)

(** [std::string::empty]. *)
Definition empty (s : string) : bool :=
  match s with
  | EmptyString => true
  | String _ _ => false
  end.

(** [s] starts with [w]. *)
Fixpoint starts_with (w s : string) : bool :=
  match w with
  | EmptyString => true
  | String a w' =>
      match s with
      | EmptyString => false
      | String b s' => Ascii.eqb a b && starts_with w' s'
      end
  end.

(** Modelled from the spec: the library-set provider hands out each set as a
    colon-joined ordered list of library names; [android::base::Split]
    (libbase, [android-base/strings.h], not part of this file) cuts such a
    string at every delimiter and keeps empty fields, so a string without a
    delimiter is one field. *)
Fixpoint Split (s : string) (delimiter : ascii) : list string :=
  match s with
  | EmptyString => [EmptyString]
  | String c s' =>
      if Ascii.eqb c delimiter then EmptyString :: Split s' delimiter
      else match Split s' delimiter with
           | [] => [String c EmptyString]
           | field :: fields => String c field :: fields
           end
  end.

(* ================================================================= *)
(** ** Regular expressions, as far as the two dex-path patterns need them *)

Module Regex.

(** The fragment of ECMAScript syntax used by [kVendorDexPathRegex] and
    [kProductDexPathRegex]: characters, [^], sequence, [|] and [?]. *)
Inductive regex : Type :=
| Eps : regex
| Chr : ascii -> regex
| Bol : regex                        (* ^ *)
| Seq : regex -> regex -> regex
| Alt : regex -> regex -> regex      (* r1|r2 *)
| Opt : regex -> regex.              (* (r)? *)

(** A literal word. *)
Fixpoint lit (w : string) : regex :=
  match w with
  | EmptyString => Eps
  | String c w' => Seq (Chr c) (lit w')
  end.

(** Backtracking matcher in continuation-passing style.  [bol] tells
    whether the current position is the beginning of the subject ([^]
    matches only there: no multiline flag is given to [std::regex]). *)
Fixpoint matches (r : regex) (bol : bool) (s : string)
         (k : bool -> string -> bool) : bool :=
  match r with
  | Eps => k bol s
  | Chr c =>
      match s with
      | EmptyString => false
      | String c' s' => if Ascii.eqb c c' then k false s' else false
      end
  | Bol => if bol then k bol s else false
  | Seq r1 r2 => matches r1 bol s (fun bol' s' => matches r2 bol' s' k)
  | Alt r1 r2 => matches r1 bol s k || matches r2 bol s k
  | Opt r1 => matches r1 bol s k || k bol s
  end.

(** A match of [r] begins at the current position. *)
Definition match_here (r : regex) (bol : bool) (s : string) : bool :=
  matches r bol s (fun _ _ => true).

Fixpoint search_from (r : regex) (bol : bool) (s : string) : bool :=
  match_here r bol s ||
  match s with
  | EmptyString => false
  | String _ s' => search_from r false s'
  end.

(** [std::regex_search(s, r)]: some substring of [s] matches [r]. *)
Definition regex_search (s : string) (r : regex) : bool :=
  search_from r true s.

End Regex.
Import Regex.

(* ================================================================= *)
(** ** Constants of the anonymous namespace *)

Definition kVendorNamespaceName : string := "sphal".
Definition kVndkNamespaceName : string := "vndk".
Definition kRuntimeNamespaceName : string := "runtime".

Definition kClassloaderNamespaceName : string := "classloader-namespace".
Definition kVendorClassloaderNamespaceName : string :=
  "vendor-classloader-namespace".

Definition kWhitelistedDirectories : string := "/data:/mnt/expand".

(** "(^|:)/vendor/" *)
Definition kVendorDexPathRegex : regex :=
  Seq (Alt Bol (Chr ":")) (lit "/vendor/").

(** "(^|:)(/system)?/product/" *)
Definition kProductDexPathRegex : regex :=
  Seq (Alt Bol (Chr ":")) (Seq (Opt (lit "/system")) (lit "/product/")).

Inductive ApkOrigin : Type :=
| APK_ORIGIN_DEFAULT
| APK_ORIGIN_VENDOR
| APK_ORIGIN_PRODUCT.

Definition ApkOrigin_eqb (a b : ApkOrigin) : bool :=
  match a, b with
  | APK_ORIGIN_DEFAULT, APK_ORIGIN_DEFAULT
  | APK_ORIGIN_VENDOR, APK_ORIGIN_VENDOR
  | APK_ORIGIN_PRODUCT, APK_ORIGIN_PRODUCT => true
  | _, _ => false
  end.

(* ================================================================= *)
(** ** Results *)

(** How a call ends: it returns a value, it returns the failure value
    ([nullptr] or [false]) with [*error_msg] set, or [LOG_ALWAYS_FATAL]
    aborts the process. *)
Inductive outcome (A : Type) : Type :=
| Ret (a : A)
| Err (error_msg : string)
| Abort (message : string).
Arguments Ret {A} a.
Arguments Err {A} error_msg.
Arguments Abort {A} message.

Definition returned {A} (o : outcome A) : bool :=
  match o with Ret _ => true | _ => false end.

(* ================================================================= *)
(** ** The origin classifier *)

Definition kBothPartitions : string :=
  "Dex path contains both vendor and product partition : ".

(** [GetApkOriginFromDexPath]; a null [jstring] is [None]. *)
Definition GetApkOriginFromDexPath (dex_path : option string)
  : outcome ApkOrigin :=
  let apk_origin := APK_ORIGIN_DEFAULT in
  match dex_path with
  | Some dex_path_utf_chars =>
      let apk_origin :=
        if regex_search dex_path_utf_chars kVendorDexPathRegex
        then APK_ORIGIN_VENDOR else apk_origin in
      if regex_search dex_path_utf_chars kProductDexPathRegex then
        if ApkOrigin_eqb apk_origin APK_ORIGIN_VENDOR
        then Abort (kBothPartitions ++ dex_path_utf_chars)
        else Ret APK_ORIGIN_PRODUCT
      else Ret apk_origin
  | None => Ret apk_origin
  end.

(* ================================================================= *)
(** ** Class loaders *)

(** A class loader as this file sees it through JNI: an object identity and
    the value of [ClassLoader.getParent()], a final field fixed when the
    loader is constructed; [nullptr] is [None]. *)
#[local] Set Warnings "-register-all".
Inductive jobject : Type :=
| ClassLoader (id : nat) (parent : option jobject).

Definition object_id (o : jobject) : nat :=
  match o with ClassLoader id _ => id end.

(** [GetParentClassLoader]. *)
Definition GetParentClassLoader (class_loader : jobject) : option jobject :=
  match class_loader with ClassLoader _ parent => parent end.

(** [env->IsSameObject]: reference identity. *)
Definition IsSameObject (a b : jobject) : bool :=
  Nat.eqb (object_id a) (object_id b).

(** A weak global reference names the object it was made from. *)
Definition jweak : Type := jobject.
Definition NewWeakGlobalRef (o : jobject) : jweak := o.

(* ================================================================= *)
(** ** The collaborators *)

(** One effectful primitive call, with what it answered. *)
Inductive Event (NS : Type) : Type :=
| EvDlopen (soname : string) (ok : bool)
| EvInitAnonymous (public_libs : string) (path : option string) (ok : bool)
| EvBridgeInitAnonymous (public_libs : string) (path : option string)
                        (ok : bool)
| EvCreate (name search_paths permitted_paths : string) (parent : option NS)
           (is_shared is_greylist_enabled : bool) (result : NS)
| EvLink (self target : NS) (shared_libs : string) (ok : bool).
Arguments EvDlopen {NS}.
Arguments EvInitAnonymous {NS}.
Arguments EvBridgeInitAnonymous {NS}.
Arguments EvCreate {NS}.
Arguments EvLink {NS}.

(** The dynamic linker and the native bridge ([dlfcn.h],
    [nativeloader/dlext_namespaces.h], [native_loader_namespace.h],
    [nativebridge/native_bridge.h]).  The scope handle is opaque.  The first
    argument of a primitive is the history of the calls made so far in the
    process, oldest first. *)
Class Linker : Type := {
  NativeLoaderNamespace : Type;
  IsNil : NativeLoaderNamespace -> bool;
  IsBridged : NativeLoaderNamespace -> bool;
  GetPlatformNamespace : bool -> NativeLoaderNamespace;
  GetExportedNamespace : string -> bool -> NativeLoaderNamespace;
  (* dlopen(soname, RTLD_NOW | RTLD_NODELETE) != nullptr *)
  dlopen : list (Event NativeLoaderNamespace) -> string -> bool;
  dlerror : list (Event NativeLoaderNamespace) -> string;
  android_init_anonymous_namespace :
    list (Event NativeLoaderNamespace) -> string -> option string -> bool;
  NativeBridgeIsPathSupported :
    list (Event NativeLoaderNamespace) -> string -> bool;
  NativeBridgeInitialized : list (Event NativeLoaderNamespace) -> bool;
  NativeBridgeInitAnonymousNamespace :
    list (Event NativeLoaderNamespace) -> string -> option string -> bool;
  NativeBridgeGetError : list (Event NativeLoaderNamespace) -> string;
  NativeLoaderNamespace_Create :
    list (Event NativeLoaderNamespace) ->
    string -> string -> string -> option NativeLoaderNamespace ->
    bool -> bool -> NativeLoaderNamespace;
  Link :
    list (Event NativeLoaderNamespace) ->
    NativeLoaderNamespace -> NativeLoaderNamespace -> string -> bool;
  GetError :
    list (Event NativeLoaderNamespace) -> NativeLoaderNamespace -> string
}.

(** [public_libraries.h] and the [LIB] macro of [utils.h] ("lib" or
    "lib64"). *)
Class PublicLibraries : Type := {
  LIB : string;
  default_public_libraries : string;
  extended_public_libraries : string;
  llndk_libraries : string;
  vndksp_libraries : string;
  runtime_public_libraries : string;
  vendor_public_libraries : string
}.

Section Engine.

Context {linker : Linker} {libs : PublicLibraries}.

Local Abbreviation history := (list (Event NativeLoaderNamespace)).

Definition kVendorLibPath : string := "/vendor/" ++ LIB.
Definition kProductLibPath : string :=
  "/product/" ++ LIB ++ ":/system/product/" ++ LIB.

(* ================================================================= *)
(** ** State *)

(** The fields of the [LibraryNamespaces] object. *)
Record LibraryNamespaces : Type := {
  initialized_ : bool;
  namespaces_ : list (jweak * NativeLoaderNamespace)
}.

(** The process: the singleton object and the history of primitive calls. *)
Record Process : Type := {
  this : LibraryNamespaces;
  calls : history
}.

Definition fresh_process : Process :=
  {| this := {| initialized_ := false; namespaces_ := [] |}; calls := [] |}.

(** Code that reads and writes the process and ends in an [outcome]. *)
Definition M (A : Type) : Type := Process -> outcome A * Process.

Definition ret {A} (a : A) : M A := fun p => (Ret a, p).

Definition bind {A B} (m : M A) (f : A -> M B) : M B :=
  fun p =>
    match m p with
    | (Ret a, p') => f a p'
    | (Err e, p') => (Err e, p')
    | (Abort e, p') => (Abort e, p')
    end.

(** [*error_msg = e; return nullptr] (or [return false]). *)
Definition fail {A} (e : string) : M A := fun p => (Err e, p).

(** [LOG_ALWAYS_FATAL]. *)
Definition fatal {A} (message : string) : M A := fun p => (Abort message, p).

Definition lift {A} (o : outcome A) : M A := fun p => (o, p).

(** Read the linker's state. *)
Definition ask {A} (q : history -> A) : M A := fun p => (Ret (q (calls p)), p).

(** The process after one more primitive call. *)
Definition record (ev : Event NativeLoaderNamespace) (p : Process) : Process :=
  {| this := this p; calls := (calls p ++ [ev])%list |}.

(** Perform a primitive call and record it with its answer. *)
Definition call {A} (q : history -> A) (ev : A -> Event NativeLoaderNamespace)
  : M A :=
  fun p => let a := q (calls p) in (Ret a, record (ev a) p).

Definition get_initialized : M bool :=
  fun p => (Ret (initialized_ (this p)), p).

Definition set_initialized (b : bool) : M unit :=
  fun p =>
    (Ret tt,
     {| this := {| initialized_ := b; namespaces_ := namespaces_ (this p) |};
        calls := calls p |}).

Definition get_namespaces : M (list (jweak * NativeLoaderNamespace)) :=
  fun p => (Ret (namespaces_ (this p)), p).

(** The process after [namespaces_.push_back(entry)]. *)
Definition registered (entry : jweak * NativeLoaderNamespace) (p : Process)
  : Process :=
  {| this := {| initialized_ := initialized_ (this p);
                namespaces_ := (namespaces_ (this p) ++ [entry])%list |};
     calls := calls p |}.

Definition push_back (entry : jweak * NativeLoaderNamespace) : M unit :=
  fun p => (Ret tt, registered entry p).

End Engine.

Declare Scope engine_scope.
Delimit Scope engine_scope with engine.
Notation "x <- c ;; k" := (bind c (fun x => k))
  (at level 61, c at next level, right associativity) : engine_scope.
Notation "c ;; k" := (bind c (fun _ => k))
  (at level 61, right associativity) : engine_scope.
Local Open Scope engine_scope.

Section Operations.

Context {linker : Linker} {libs : PublicLibraries}.

(* ================================================================= *)
(** ** Bootstrap *)

Definition kPreloadError : string := "Error preloading public library ".

(** The loop of [Initialize] over the split default public libraries. *)
Fixpoint preload (sonames : list string) : M unit :=
  match sonames with
  | [] => ret tt
  | soname :: rest =>
      loaded <- call (fun h => dlopen h soname) (EvDlopen soname) ;;
      if loaded then preload rest
      else
        e <- ask dlerror ;;
        fatal (kPreloadError ++ soname ++ ": " ++ e)
  end.

(** [LibraryNamespaces::Initialize]. *)
Definition Initialize : M unit :=
  initialized <- get_initialized ;;
  if initialized then ret tt
  else preload (Split default_public_libraries ":").

(** [LibraryNamespaces::InitPublicNamespace]; [Err] is [return false] with
    [*error_msg] set. *)
Definition InitPublicNamespace (library_path : string) : M unit :=
  is_native_bridge <-
    ask (fun h => NativeBridgeIsPathSupported h library_path) ;;
  let anon_path := if is_native_bridge then None else Some library_path in
  ok <- call (fun h => android_init_anonymous_namespace
                         h default_public_libraries anon_path)
             (EvInitAnonymous default_public_libraries anon_path) ;;
  set_initialized ok ;;
  if negb ok then e <- ask dlerror ;; fail e
  else
    bridge <- ask NativeBridgeInitialized ;;
    if bridge then
      let bridge_path :=
        if is_native_bridge then Some library_path else None in
      ok' <- call (fun h => NativeBridgeInitAnonymousNamespace
                              h default_public_libraries bridge_path)
                  (EvBridgeInitAnonymous default_public_libraries
                                         bridge_path) ;;
      set_initialized ok' ;;
      if negb ok' then e <- ask NativeBridgeGetError ;; fail e
      else ret tt
    else ret tt.

(* ================================================================= *)
(** ** The registry *)

(** [std::find_if] over [namespaces_] with [IsSameObject]. *)
Definition find_namespace (namespaces : list (jweak * NativeLoaderNamespace))
           (class_loader : jobject) : option NativeLoaderNamespace :=
  match find (fun value => IsSameObject (fst value) class_loader) namespaces
  with
  | Some it => Some (snd it)
  | None => None
  end.

(** [LibraryNamespaces::FindNamespaceByClassLoader]; [nullptr] is [None]. *)
Definition FindNamespaceByClassLoader (class_loader : jobject)
  : M (option NativeLoaderNamespace) :=
  namespaces <- get_namespaces ;;
  ret (find_namespace namespaces class_loader).

(** The [while] loop of [FindParentNamespaceByClassLoader], entered with a
    non-null [parent_class_loader]. *)
Fixpoint parent_walk (namespaces : list (jweak * NativeLoaderNamespace))
         (parent_class_loader : jobject) : option NativeLoaderNamespace :=
  match find_namespace namespaces parent_class_loader with
  | Some ns => Some ns
  | None =>
      match parent_class_loader with
      | ClassLoader _ None => None
      | ClassLoader _ (Some grandparent) => parent_walk namespaces grandparent
      end
  end.

(** [LibraryNamespaces::FindParentNamespaceByClassLoader]. *)
Definition FindParentNamespaceByClassLoader (class_loader : jobject)
  : M (option NativeLoaderNamespace) :=
  namespaces <- get_namespaces ;;
  match GetParentClassLoader class_loader with
  | None => ret None
  | Some parent_class_loader =>
      ret (parent_walk namespaces parent_class_loader)
  end.

(* ================================================================= *)
(** ** The policy engine *)

Definition kAlreadyAssociated : string :=
  "There is already a namespace associated with this classloader".

(** The locals of [Create] that its lines 169-211 compute. *)
Record EffectivePolicy : Type := {
  library_path : string;
  permitted_path : string;
  system_exposed_libraries : string;
  namespace_name : string;
  unbundled_vendor_or_product_app : bool
}.

(** Lines 169-211 of [Create]: [library_path0] and [permitted_path0] are the
    values the two locals hold on entry. *)
Definition effective_policy (apk_origin : ApkOrigin) (target_sdk_version : N)
           (is_shared : bool) (library_path0 permitted_path0 : string)
  : EffectivePolicy :=
  let system_exposed_libraries := default_public_libraries in
  let namespace_name := kClassloaderNamespaceName in
  let unbundled_vendor_or_product_app := false in
  if (ApkOrigin_eqb apk_origin APK_ORIGIN_VENDOR ||
      (ApkOrigin_eqb apk_origin APK_ORIGIN_PRODUCT &&
       (29 <? target_sdk_version)%N)) &&
     negb is_shared
  then
    let origin_lib_path :=
      match apk_origin with
      | APK_ORIGIN_VENDOR => kVendorLibPath
      | APK_ORIGIN_PRODUCT => kProductLibPath
      | APK_ORIGIN_DEFAULT => ""
      end in
    {| library_path := library_path0 ++ ":" ++ origin_lib_path;
       permitted_path := permitted_path0 ++ ":" ++ origin_lib_path;
       system_exposed_libraries :=
         system_exposed_libraries ++ ":" ++ llndk_libraries;
       namespace_name := kVendorClassloaderNamespaceName;
       unbundled_vendor_or_product_app := true |}
  else
    {| library_path := library_path0;
       permitted_path := permitted_path0;
       system_exposed_libraries :=
         if negb (empty extended_public_libraries)
         then system_exposed_libraries ++ ":" ++ extended_public_libraries
         else system_exposed_libraries;
       namespace_name := namespace_name;
       unbundled_vendor_or_product_app := unbundled_vendor_or_product_app |}.

(** Lines 150-157 of [Create]. *)
Definition resolve_permitted_path (java_permitted_path : option string)
  : string :=
  let permitted_path := kWhitelistedDirectories in
  match java_permitted_path with
  | Some path =>
      if (0 <? String.length path)%nat then permitted_path ++ ":" ++ path
      else permitted_path
  | None => permitted_path
  end.

(** [app_ns.Link(target, shared_libs)]. *)
Definition link (app_ns target : NativeLoaderNamespace) (shared_libs : string)
  : M bool :=
  call (fun h => Link h app_ns target shared_libs)
       (EvLink app_ns target shared_libs).

(** [LibraryNamespaces::Create]; a null [jstring] is [None], and [Err] is
    [return nullptr] with [*error_msg] set. *)
Definition Create (target_sdk_version : N) (class_loader : jobject)
           (is_shared : bool)
           (dex_path java_library_path java_permitted_path : option string)
  : M NativeLoaderNamespace :=
  let library_path0 :=
    match java_library_path with
    | Some library_path_utf_chars => library_path_utf_chars
    | None => ""
    end in
  apk_origin <- lift (GetApkOriginFromDexPath dex_path) ;;
  let permitted_path0 := resolve_permitted_path java_permitted_path in
  initialized <- get_initialized ;;
  (if negb (empty library_path0) && negb initialized
   then InitPublicNamespace library_path0 else ret tt) ;;
  found <- FindNamespaceByClassLoader class_loader ;;
  (match found with
   | Some _ => fatal kAlreadyAssociated
   | None => ret tt
   end) ;;
  let policy := effective_policy apk_origin target_sdk_version is_shared
                                 library_path0 permitted_path0 in
  parent_ns <- FindParentNamespaceByClassLoader class_loader ;;
  let is_greylist_enabled := (target_sdk_version <? 24)%N in
  app_ns <- call (fun h => NativeLoaderNamespace_Create
                             h (namespace_name policy) (library_path policy)
                             (permitted_path policy) parent_ns is_shared
                             is_greylist_enabled)
                 (EvCreate (namespace_name policy) (library_path policy)
                           (permitted_path policy) parent_ns is_shared
                           is_greylist_enabled) ;;
  if IsNil app_ns then e <- ask (fun h => GetError h app_ns) ;; fail e
  else
    let is_bridged := IsBridged app_ns in
    let platform_ns := GetPlatformNamespace is_bridged in
    linked <- link app_ns platform_ns (system_exposed_libraries policy) ;;
    if negb linked then e <- ask (fun h => GetError h app_ns) ;; fail e
    else
      let runtime_ns := GetExportedNamespace kRuntimeNamespaceName is_bridged in
      (if negb (IsNil runtime_ns) then
         linked <- link app_ns runtime_ns runtime_public_libraries ;;
         if negb linked then e <- ask (fun h => GetError h app_ns) ;; fail e
         else ret tt
       else ret tt) ;;
      (if unbundled_vendor_or_product_app policy &&
          negb (empty vndksp_libraries) then
         let vndk_ns := GetExportedNamespace kVndkNamespaceName is_bridged in
         if negb (IsNil vndk_ns) then
           linked <- link app_ns vndk_ns vndksp_libraries ;;
           if negb linked then e <- ask (fun h => GetError h app_ns) ;; fail e
           else ret tt
         else ret tt
       else ret tt) ;;
      (if negb (empty vendor_public_libraries) then
         let vendor_ns :=
           GetExportedNamespace kVendorNamespaceName is_bridged in
         linked <- link app_ns vendor_ns vendor_public_libraries ;;
         if negb linked then e <- ask dlerror ;; fail e
         else ret tt
       else ret tt) ;;
      push_back (NewWeakGlobalRef class_loader, app_ns) ;;
      ret app_ns.

End Operations.

(* ================================================================= *)
(** ** Vocabulary of the statements *)

(** The ancestor chain of a class loader, nearest first. *)
Fixpoint ancestors_from (parent_class_loader : jobject) : list jobject :=
  parent_class_loader ::
  match parent_class_loader with
  | ClassLoader _ None => []
  | ClassLoader _ (Some grandparent) => ancestors_from grandparent
  end.

Definition ancestors (class_loader : jobject) : list jobject :=
  match GetParentClassLoader class_loader with
  | None => []
  | Some parent_class_loader => ancestors_from parent_class_loader
  end.

(** Induction along the parent chain of a class loader. *)
Fixpoint jobject_chain_ind (P : jobject -> Prop)
         (Hroot : forall id, P (ClassLoader id None))
         (Hchild : forall id parent,
             P parent -> P (ClassLoader id (Some parent)))
         (o : jobject) : P o :=
  match o with
  | ClassLoader id None => Hroot id
  | ClassLoader id (Some parent) =>
      Hchild id parent (jobject_chain_ind P Hroot Hchild parent)
  end.

(** Spec wording of the two patterns: the marker sits at the start of the
    path or right after a path separator ':'. *)
Definition marked (marker : string -> bool) (dex_path : string) : Prop :=
  marker dex_path = true \/
  exists before rest,
    dex_path = before ++ ":" ++ rest /\ marker rest = true.

Definition vendor_marker (s : string) : bool := starts_with "/vendor/" s.

(** A direct product path or the legacy system/product path. *)
Definition product_marker (s : string) : bool :=
  starts_with "/system/product/" s || starts_with "/product/" s.

Section Vocabulary.

Context {linker : Linker} {libs : PublicLibraries}.

Local Abbreviation history := (list (Event NativeLoaderNamespace)).

(** A primitive call that reported failure. *)
Definition failed (e : Event NativeLoaderNamespace) : bool :=
  match e with
  | EvDlopen _ ok => negb ok
  | EvInitAnonymous _ _ ok => negb ok
  | EvBridgeInitAnonymous _ _ ok => negb ok
  | EvCreate _ _ _ _ _ _ result => IsNil result
  | EvLink _ _ _ ok => negb ok
  end.

(** The calls that initialise the anonymous namespace. *)
Definition is_boot (e : Event NativeLoaderNamespace) : bool :=
  match e with
  | EvInitAnonymous _ _ _ | EvBridgeInitAnonymous _ _ _ => true
  | _ => false
  end.

(** The [dlopen] attempts of a history, in order. *)
Fixpoint preloads (h : history) : list string :=
  match h with
  | [] => []
  | EvDlopen soname _ :: h' => soname :: preloads h'
  | _ :: h' => preloads h'
  end.

(** The link attempts of a history, in order: target, exposed names and
    answer. *)
Fixpoint link_attempts (h : history)
  : list (NativeLoaderNamespace * string * bool) :=
  match h with
  | [] => []
  | EvLink _ target shared_libs ok :: h' =>
      (target, shared_libs, ok) :: link_attempts h'
  | _ :: h' => link_attempts h'
  end.

(** The scopes a history asked the linker to create: name, search paths
    and permitted paths. *)
Fixpoint scope_requests (h : history) : list (string * string * string) :=
  match h with
  | [] => []
  | EvCreate name search_paths permitted_paths _ _ _ _ :: h' =>
      (name, search_paths, permitted_paths) :: scope_requests h'
  | _ :: h' => scope_requests h'
  end.

(** The handles the linker answered to those requests. *)
Fixpoint scopes_created (h : history) : list NativeLoaderNamespace :=
  match h with
  | [] => []
  | EvCreate _ _ _ _ _ _ result :: h' => result :: scopes_created h'
  | _ :: h' => scopes_created h'
  end.

(** A link attempt that succeeded. *)
Definition attempt_ok (step : NativeLoaderNamespace * string)
  : NativeLoaderNamespace * string * bool :=
  (fst step, snd step, true).

(** What [Create] asks of the linker for a policy. *)
Definition request (policy : EffectivePolicy) : string * string * string :=
  (namespace_name policy, library_path policy, permitted_path policy).

(** Spec wording of the policy of an ordinary (bundled) app: paths as
    declared, the platform-exposed set widened by the extended public set
    when that set is not empty, the ordinary label. *)
Definition ordinary_app_policy (declared_search_path permitted : string)
  : EffectivePolicy :=
  {| library_path := declared_search_path;
     permitted_path := permitted;
     system_exposed_libraries :=
       if empty extended_public_libraries then default_public_libraries
       else default_public_libraries ++ ":" ++ extended_public_libraries;
     namespace_name := kClassloaderNamespaceName;
     unbundled_vendor_or_product_app := false |}.

(** Spec wording of the policy of an unbundled partition app: the
    partition's library directory appended to both paths, the
    platform-exposed set widened by the LLNDK set, the partition label. *)
Definition unbundled_app_policy (declared_search_path permitted : string)
           (partition_lib_path : string) : EffectivePolicy :=
  {| library_path := declared_search_path ++ ":" ++ partition_lib_path;
     permitted_path := permitted ++ ":" ++ partition_lib_path;
     system_exposed_libraries :=
       default_public_libraries ++ ":" ++ llndk_libraries;
     namespace_name := kVendorClassloaderNamespaceName;
     unbundled_vendor_or_product_app := true |}.

(** Spec wording of the parent lookup: the handle of the first context of
    the chain that has a Registry Entry. *)
Fixpoint nearest_registered
         (namespaces : list (jweak * NativeLoaderNamespace))
         (chain : list jobject) : option NativeLoaderNamespace :=
  match chain with
  | [] => None
  | ancestor :: chain' =>
      match find_namespace namespaces ancestor with
      | Some handle => Some handle
      | None => nearest_registered namespaces chain'
      end
  end.

(** Running [m] from [p] ends in an outcome and a process that satisfy
    [Q]. *)
Definition wp {A} (m : M A) (p : Process)
           (Q : outcome A -> Process -> Prop) : Prop :=
  Q (fst (m p)) (snd (m p)).

(** The links of lines 223-259, as the targets and the exposed names of the
    attempts that are made if none fails. *)
Definition platform_link (policy : EffectivePolicy) (is_bridged : bool)
  : list (NativeLoaderNamespace * string) :=
  [(GetPlatformNamespace is_bridged, system_exposed_libraries policy)].

Definition runtime_link (is_bridged : bool)
  : list (NativeLoaderNamespace * string) :=
  let runtime_ns := GetExportedNamespace kRuntimeNamespaceName is_bridged in
  if negb (IsNil runtime_ns) then [(runtime_ns, runtime_public_libraries)]
  else [].

Definition vndk_link (policy : EffectivePolicy) (is_bridged : bool)
  : list (NativeLoaderNamespace * string) :=
  let vndk_ns := GetExportedNamespace kVndkNamespaceName is_bridged in
  if unbundled_vendor_or_product_app policy && negb (empty vndksp_libraries)
     && negb (IsNil vndk_ns)
  then [(vndk_ns, vndksp_libraries)]
  else [].

Definition vendor_link (is_bridged : bool)
  : list (NativeLoaderNamespace * string) :=
  let vendor_ns := GetExportedNamespace kVendorNamespaceName is_bridged in
  if negb (empty vendor_public_libraries)
  then [(vendor_ns, vendor_public_libraries)]
  else [].

Definition link_plan (policy : EffectivePolicy) (is_bridged : bool)
  : list (NativeLoaderNamespace * string) :=
  (platform_link policy is_bridged ++ runtime_link is_bridged ++
   vndk_link policy is_bridged ++ vendor_link is_bridged)%list.

(** A link of [app_ns] that succeeded. *)
Definition linked_ok (app_ns : NativeLoaderNamespace)
           (step : NativeLoaderNamespace * string)
  : Event NativeLoaderNamespace :=
  EvLink app_ns (fst step) (snd step) true.

(** What one guarded link step leaves behind when started from [p]: [step]
    holds the attempt that the guard lets through, if any. *)
Definition link_post (app_ns : NativeLoaderNamespace) (p : Process)
           (step : list (NativeLoaderNamespace * string))
           (r : outcome unit) (p' : Process) : Prop :=
  this p' = this p /\
  match r with
  | Ret _ => calls p' = (calls p ++ map (linked_ok app_ns) step)%list
  | Err _ =>
      exists target shared_libs,
        step = [(target, shared_libs)] /\
        calls p' = (calls p ++ [EvLink app_ns target shared_libs false])%list
  | Abort _ => False
  end.

(** What [InitPublicNamespace] leaves behind when started from [p]. *)
Definition boot_post (p : Process) (r : outcome unit) (p' : Process) : Prop :=
  exists boot,
    calls p' = (calls p ++ boot)%list /\
    namespaces_ (this p') = namespaces_ (this p) /\
    forallb is_boot boot = true /\
    match r with
    | Ret _ => initialized_ (this p') = true /\ existsb failed boot = false
    | Err _ =>
        initialized_ (this p') = false /\
        exists done last,
          boot = (done ++ [last])%list /\
          existsb failed done = false /\ failed last = true
    | Abort _ => False
    end.

Section Run.

(** One call [Create(env, target_sdk_version, class_loader, is_shared,
    dex_path, java_library_path, java_permitted_path, error_msg)] from
    process [p]. *)
Variables (target_sdk_version : N) (class_loader : jobject)
          (is_shared : bool)
          (dex_path java_library_path java_permitted_path : option string)
          (p : Process).

Definition declared_library_path : string :=
  match java_library_path with
  | Some library_path_utf_chars => library_path_utf_chars
  | None => ""
  end.

(** The guard of line 160: the anonymous namespace is to be
    initialised. *)
Definition boots : bool :=
  negb (empty declared_library_path) && negb (initialized_ (this p)).

(** The process once lines 159-163 are passed. *)
Inductive booted : Process -> Prop :=
| Booted_skip : boots = false -> booted p
| Booted_init p1 :
    boots = true ->
    InitPublicNamespace declared_library_path p = (Ret tt, p1) ->
    booted p1.

(** Lines 218-264, from the process [p2] in which [app_ns] was just
    created. *)
Inductive Scope_run (policy : EffectivePolicy)
          (app_ns : NativeLoaderNamespace) (p2 : Process)
  : outcome NativeLoaderNamespace -> Process -> Prop :=
| Scope_nil :
    IsNil app_ns = true ->
    Scope_run policy app_ns p2 (Err (GetError (calls p2) app_ns)) p2
| Scope_link_failed done target shared_libs later e p3 :
    IsNil app_ns = false ->
    link_plan policy (IsBridged app_ns) =
      (done ++ (target, shared_libs) :: later)%list ->
    this p3 = this p2 ->
    calls p3 =
      (calls p2 ++ map (linked_ok app_ns) done ++
       [EvLink app_ns target shared_libs false])%list ->
    Scope_run policy app_ns p2 (Err e) p3
| Scope_ok p3 :
    IsNil app_ns = false ->
    this p3 = this p2 ->
    calls p3 =
      (calls p2 ++
       map (linked_ok app_ns) (link_plan policy (IsBridged app_ns)))%list ->
    Scope_run policy app_ns p2 (Ret app_ns)
              (registered (NewWeakGlobalRef class_loader, app_ns) p3).

(** The runs of [Create]. *)
Inductive Create_run : outcome NativeLoaderNamespace -> Process -> Prop :=
| Run_ambiguous message :
    GetApkOriginFromDexPath dex_path = Abort message ->
    Create_run (Abort message) p
| Run_boot_failed apk_origin e p1 :
    GetApkOriginFromDexPath dex_path = Ret apk_origin ->
    boots = true ->
    InitPublicNamespace declared_library_path p = (Err e, p1) ->
    Create_run (Err e) p1
| Run_duplicate apk_origin p1 ns :
    GetApkOriginFromDexPath dex_path = Ret apk_origin ->
    booted p1 ->
    find_namespace (namespaces_ (this p1)) class_loader = Some ns ->
    Create_run (Abort kAlreadyAssociated) p1
| Run_scope apk_origin p1 app_ns r p' :
    GetApkOriginFromDexPath dex_path = Ret apk_origin ->
    booted p1 ->
    find_namespace (namespaces_ (this p1)) class_loader = None ->
    let policy :=
      effective_policy apk_origin target_sdk_version is_shared
                       declared_library_path
                       (resolve_permitted_path java_permitted_path) in
    let parent_ns :=
      nearest_registered (namespaces_ (this p1)) (ancestors class_loader) in
    let is_greylist_enabled := (target_sdk_version <? 24)%N in
    app_ns =
      NativeLoaderNamespace_Create
        (calls p1) (namespace_name policy) (library_path policy)
        (permitted_path policy) parent_ns is_shared is_greylist_enabled ->
    Scope_run policy app_ns
              (record (EvCreate (namespace_name policy) (library_path policy)
                                (permitted_path policy) parent_ns is_shared
                                is_greylist_enabled app_ns) p1)
              r p' ->
    Create_run r p'.

End Run.

End Vocabulary.

(* ================================================================= *)
(** ** Sample collaborators *)

Module Sample.

Definition libs : PublicLibraries :=
  {| LIB := "lib64";
     default_public_libraries := "libandroid.so:libc.so";
     extended_public_libraries := "libextra.so";
     llndk_libraries := "libvndksupport.so";
     vndksp_libraries := "libcutils.so";
     runtime_public_libraries := "libicuuc.so";
     vendor_public_libraries := "libvendorpub.so" |}.


(** A linker whose handles are numbers, 0 being the nil handle: the
    platform namespace is 1, "runtime" is 2, "vndk" is 3 and no "sphal"
    namespace is configured; a new scope gets a number not used before.
    Every primitive succeeds, except that the anonymous namespace
    initialises only if [anonymous_ok]. *)
Definition linker (anonymous_ok : bool) : Linker :=
  {| NativeLoaderNamespace := nat;
     IsNil := fun ns => Nat.eqb ns 0;
     IsBridged := fun _ => false;
     GetPlatformNamespace := fun _ => 1;
     GetExportedNamespace := fun name _ =>
       if String.eqb name kRuntimeNamespaceName then 2
       else if String.eqb name kVndkNamespaceName then 3
       else 0;
     dlopen := fun _ _ => true;
     dlerror := fun _ => "dlerror";
     android_init_anonymous_namespace := fun _ _ _ => anonymous_ok;
     NativeBridgeIsPathSupported := fun _ _ => false;
     NativeBridgeInitialized := fun _ => false;
     NativeBridgeInitAnonymousNamespace := fun _ _ _ => true;
     NativeBridgeGetError := fun _ => "native bridge error";
     NativeLoaderNamespace_Create := fun h _ _ _ _ _ _ => 10 + length h;
     Link := fun _ _ _ _ => true;
     GetError := fun _ _ => "namespace error" |}.

(** A process of that linker with a given flag and registry and no call
    made yet. *)
Definition process_with (initialized : bool) (entries : list (jweak * nat))
  : @Process (linker true) :=
  @Build_Process (linker true)
    (@Build_LibraryNamespaces (linker true) initialized entries) [].

Definition boot_class_loader : jobject := ClassLoader 1 None.
Definition system_class_loader : jobject :=
  ClassLoader 2 (Some boot_class_loader).
Definition shared_loader : jobject :=
  ClassLoader 3 (Some system_class_loader).
Definition app_class_loader : jobject :=
  ClassLoader 4 (Some shared_loader).

End Sample.

(* ================================================================= *)
(** ** Vocabulary of the further properties *)

(** The word has no ':' in it. *)
Fixpoint colon_free (w : string) : bool :=
  match w with
  | EmptyString => true
  | String c w' => negb (Ascii.eqb c ":") && colon_free w'
  end.

(** The library lists with another LLNDK list. *)
Definition with_llndk_libraries (other_llndk : string)
           (libs : PublicLibraries) : PublicLibraries :=
  {| LIB := LIB;
     default_public_libraries := default_public_libraries;
     extended_public_libraries := extended_public_libraries;
     llndk_libraries := other_llndk;
     vndksp_libraries := vndksp_libraries;
     runtime_public_libraries := runtime_public_libraries;
     vendor_public_libraries := vendor_public_libraries |}.

(** Library lists in which "libc.so" is a default public library and an
    LLNDK library at once. *)
Definition libs_with_public_llndk : PublicLibraries :=
  {| LIB := "lib64";
     default_public_libraries := "libandroid.so:libc.so";
     extended_public_libraries := "libextra.so";
     llndk_libraries := "libc.so:libvndksupport.so";
     vndksp_libraries := "libcutils.so";
     runtime_public_libraries := "libicuuc.so";
     vendor_public_libraries := "libvendorpub.so" |}.

Section FurtherVocabulary.

Context {linker : Linker} {libs : PublicLibraries}.

Local Abbreviation history := (list (Event NativeLoaderNamespace)).

Definition is_link (e : Event NativeLoaderNamespace) : bool :=
  match e with
  | EvLink _ _ _ _ => true
  | _ => false
  end.

(** The attempts of a history to initialise the anonymous namespace, in
    order: through the native bridge or not, the path handed over, and the
    answer. *)
Fixpoint boot_attempts (h : history) : list (bool * option string * bool) :=
  match h with
  | [] => []
  | EvInitAnonymous _ path ok :: h' => (false, path, ok) :: boot_attempts h'
  | EvBridgeInitAnonymous _ path ok :: h' =>
      (true, path, ok) :: boot_attempts h'
  | _ :: h' => boot_attempts h'
  end.

(** How the scopes of a history were asked for: parent, [is_shared] and
    [is_greylist_enabled]. *)
Fixpoint scope_settings (h : history)
  : list (option NativeLoaderNamespace * bool * bool) :=
  match h with
  | [] => []
  | EvCreate _ _ _ parent is_shared is_greylist_enabled _ :: h' =>
      (parent, is_shared, is_greylist_enabled) :: scope_settings h'
  | _ :: h' => scope_settings h'
  end.

(** No class loader has two entries. *)
Definition unique_entries (namespaces : list (jweak * NativeLoaderNamespace))
  : Prop :=
  NoDup (map (fun entry => object_id (fst entry)) namespaces).

(** The arguments of one call of [Create]. *)
Record CreateArgs : Type := {
  arg_target_sdk_version : N;
  arg_class_loader : jobject;
  arg_is_shared : bool;
  arg_dex_path : option string;
  arg_java_library_path : option string;
  arg_java_permitted_path : option string
}.

Definition Create_with (a : CreateArgs) : M NativeLoaderNamespace :=
  Create (arg_target_sdk_version a) (arg_class_loader a) (arg_is_shared a)
         (arg_dex_path a) (arg_java_library_path a)
         (arg_java_permitted_path a).

(** The processes that calls of [Initialize] and [Create] lead to from a
    fresh process. *)
Inductive reachable : Process -> Prop :=
| Reach_fresh : reachable fresh_process
| Reach_Initialize p : reachable p -> reachable (snd (Initialize p))
| Reach_Create p a : reachable p -> reachable (snd (Create_with a p)).

(** The processes that calls of [Initialize] and [Create] lead to from
    [p0]. *)
Inductive reachable_from (p0 : Process) : Process -> Prop :=
| From_start : reachable_from p0 p0
| From_Initialize q :
    reachable_from p0 q -> reachable_from p0 (snd (Initialize q))
| From_Create q a :
    reachable_from p0 q -> reachable_from p0 (snd (Create_with a q)).

End FurtherVocabulary.

(** A linker like [Sample.linker true], except that every link to the
    "runtime" namespace fails. *)
Definition linker_without_runtime_link : Linker :=
  {| NativeLoaderNamespace := nat;
     IsNil := fun ns => Nat.eqb ns 0;
     IsBridged := fun _ => false;
     GetPlatformNamespace := fun _ => 1;
     GetExportedNamespace := fun name _ =>
       if String.eqb name kRuntimeNamespaceName then 2
       else if String.eqb name kVndkNamespaceName then 3
       else 0;
     dlopen := fun _ _ => true;
     dlerror := fun _ => "dlerror";
     android_init_anonymous_namespace := fun _ _ _ => true;
     NativeBridgeIsPathSupported := fun _ _ => false;
     NativeBridgeInitialized := fun _ => false;
     NativeBridgeInitAnonymousNamespace := fun _ _ _ => true;
     NativeBridgeGetError := fun _ => "native bridge error";
     NativeLoaderNamespace_Create := fun h _ _ _ _ _ _ => 10 + length h;
     Link := fun _ _ target _ => negb (Nat.eqb target 2);
     GetError := fun _ _ => "namespace error" |}.

(* ================================================================= *)
(** ** Strings and patterns *)

(** Matching a literal word and then [k] is a prefix test followed by [k]
    on what is left. *)
Lemma matches_lit_cons a w bol s k :
  matches (lit (String a w)) bol s k =
  match s with
  | EmptyString => false
  | String c s' => Ascii.eqb a c && matches (lit w) false s' k
  end.
Proof.
  cbn [lit matches]. destruct s as [|c s]; [reflexivity|].
  destruct (Ascii.eqb a c); reflexivity.
Qed.

Lemma match_here_lit w bol s :
  w <> EmptyString -> match_here (lit w) bol s = starts_with w s.
Proof.
  unfold match_here. revert bol s.
  induction w as [|a w IH]; intros bol s Hw; [congruence|].
  rewrite matches_lit_cons. cbn [starts_with].
  destruct s as [|c s]; [reflexivity|].
  destruct w as [|b w]; [reflexivity|].
  rewrite IH by discriminate. reflexivity.
Qed.

(** A literal followed by a second literal. *)
Lemma matches_lit_then w1 w2 bol s :
  w2 <> EmptyString ->
  matches (lit w1) bol s (fun b s' => matches (lit w2) b s' (fun _ _ => true))
  = starts_with (w1 ++ w2) s.
Proof.
  intros Hw2. revert bol s.
  induction w1 as [|a w1 IH]; intros bol s.
  - cbn [lit matches append]. apply (match_here_lit w2 bol s Hw2).
  - rewrite matches_lit_cons. cbn [append starts_with].
    destruct s as [|c s]; [reflexivity|]. rewrite IH. reflexivity.
Qed.

Lemma match_here_vendor_body bol s :
  match_here (lit "/vendor/") bol s = vendor_marker s.
Proof. apply match_here_lit. discriminate. Qed.

Lemma match_here_product_body bol s :
  match_here (Seq (Opt (lit "/system")) (lit "/product/")) bol s =
  product_marker s.
Proof.
  unfold match_here, product_marker.
  cbn [matches]. 
  rewrite (matches_lit_then "/system" "/product/") by discriminate.
  change (matches (lit "/product/") bol s (fun _ _ => true))
    with (match_here (lit "/product/") bol s).
  rewrite match_here_lit by discriminate. reflexivity.
Qed.

Section Anchored.

(** A pattern "(^|:)body" whose body matches exactly where [marker]
    holds. *)
Variable body : regex.
Variable marker : string -> bool.
Hypothesis body_marker : forall bol s, match_here body bol s = marker s.

Lemma match_here_anchored bol s :
  match_here (Seq (Alt Bol (Chr ":")) body) bol s =
  (bol && marker s) ||
  match s with
  | String c s' => Ascii.eqb ":" c && marker s'
  | EmptyString => false
  end.
Proof.
  unfold match_here. cbn [matches].
  change (matches body bol s (fun _ _ => true)) with (match_here body bol s).
  rewrite body_marker.
  assert (Hsep :
    match s with
    | EmptyString => false
    | String c' s' =>
        if Ascii.eqb ":" c' then matches body false s' (fun _ _ => true)
        else false
    end =
    match s with
    | String c s' => Ascii.eqb ":" c && marker s'
    | EmptyString => false
    end).
  { destruct s as [|c s]; [reflexivity|].
    change (matches body false s (fun _ _ => true))
      with (match_here body false s).
    rewrite body_marker. destruct (Ascii.eqb ":" c); reflexivity. }
  rewrite Hsep. destruct bol; reflexivity.
Qed.

Lemma search_from_sound s :
  forall bol, search_from (Seq (Alt Bol (Chr ":")) body) bol s = true ->
  (bol = true /\ marker s = true) \/
  exists before rest, s = before ++ ":" ++ rest /\ marker rest = true.
Proof.
  induction s as [|c s IH]; intros bol H; cbn [search_from] in H;
    rewrite match_here_anchored in H;
    apply orb_true_iff in H; destruct H as [H|H].
  - rewrite orb_false_r in H. apply andb_true_iff in H. now left.
  - discriminate.
  - apply orb_true_iff in H. destruct H as [H|H].
    + apply andb_true_iff in H. now left.
    + apply andb_true_iff in H. destruct H as [Hc Hm].
      apply Ascii.eqb_eq in Hc. subst c.
      right. exists "", s. split; [reflexivity | exact Hm].
  - destruct (IH false H) as [[Hf _] | (before & rest & -> & Hm)];
      [discriminate|].
    right. exists (String c before), rest. split; [reflexivity | exact Hm].
Qed.

Lemma search_from_after before rest :
  marker rest = true ->
  forall bol,
    search_from (Seq (Alt Bol (Chr ":")) body) bol (before ++ ":" ++ rest)
    = true.
Proof.
  intros Hm. induction before as [|c before IH]; intros bol.
  - cbn [append search_from]. rewrite match_here_anchored.
    rewrite Ascii.eqb_refl, Hm. cbn [andb]. rewrite orb_true_r. reflexivity.
  - cbn [append search_from] in IH |- *. rewrite (IH false).
    apply orb_true_r.
Qed.

Lemma regex_search_anchored s :
  regex_search s (Seq (Alt Bol (Chr ":")) body) = true <-> marked marker s.
Proof.
  unfold regex_search, marked. split.
  - intros H. destruct (search_from_sound s true H) as [[_ Hm] | Hr];
      [left; exact Hm | right; exact Hr].
  - intros [Hm | (before & rest & -> & Hm)].
    + destruct s as [|c s]; cbn [search_from];
        rewrite match_here_anchored, Hm; reflexivity.
    + apply search_from_after. exact Hm.
Qed.

End Anchored.

(** "(^|:)/vendor/" finds the vendor marker at the start or after a ':'. *)
Lemma vendor_pattern_spec s :
  regex_search s kVendorDexPathRegex = true <-> marked vendor_marker s.
Proof. apply regex_search_anchored. apply match_here_vendor_body. Qed.

(** "(^|:)(/system)?/product/" finds either product marker at the start or
    after a ':'. *)
Lemma product_pattern_spec s :
  regex_search s kProductDexPathRegex = true <-> marked product_marker s.
Proof. apply regex_search_anchored. apply match_here_product_body. Qed.

(* ================================================================= *)
(** ** The origin classifier *)

Lemma not_marked_vendor s :
  ~ marked vendor_marker s -> regex_search s kVendorDexPathRegex = false.
Proof.
  intros H. destruct (regex_search s kVendorDexPathRegex) eqn:E;
    [|reflexivity].
  apply vendor_pattern_spec in E. contradiction.
Qed.

Lemma not_marked_product s :
  ~ marked product_marker s -> regex_search s kProductDexPathRegex = false.
Proof.
  intros H. destruct (regex_search s kProductDexPathRegex) eqn:E;
    [|reflexivity].
  apply product_pattern_spec in E. contradiction.
Qed.

(** The classifier as a table of the two searches. *)
Lemma GetApkOriginFromDexPath_table s :
  GetApkOriginFromDexPath (Some s) =
  match regex_search s kVendorDexPathRegex,
        regex_search s kProductDexPathRegex with
  | true, true => Abort (kBothPartitions ++ s)
  | true, false => Ret APK_ORIGIN_VENDOR
  | false, true => Ret APK_ORIGIN_PRODUCT
  | false, false => Ret APK_ORIGIN_DEFAULT
  end.
Proof.
  unfold GetApkOriginFromDexPath.
  destruct (regex_search s kVendorDexPathRegex),
           (regex_search s kProductDexPathRegex); reflexivity.
Qed.

(** C3.  The classifier answers for every optional dex path: an absent path
    is Default; a path that carries only the vendor marker (at its start or
    after a ':') is Vendor; one that carries only a product marker is
    Product; one that carries neither is Default; one that carries both
    aborts the process with the fatal message and returns no
    classification. *)
Theorem GetApkOriginFromDexPath_classifies :
  GetApkOriginFromDexPath None = Ret APK_ORIGIN_DEFAULT /\
  forall s,
    (marked vendor_marker s -> ~ marked product_marker s ->
     GetApkOriginFromDexPath (Some s) = Ret APK_ORIGIN_VENDOR) /\
    (~ marked vendor_marker s -> marked product_marker s ->
     GetApkOriginFromDexPath (Some s) = Ret APK_ORIGIN_PRODUCT) /\
    (~ marked vendor_marker s -> ~ marked product_marker s ->
     GetApkOriginFromDexPath (Some s) = Ret APK_ORIGIN_DEFAULT) /\
    (marked vendor_marker s -> marked product_marker s ->
     GetApkOriginFromDexPath (Some s) = Abort (kBothPartitions ++ s)).
Proof.
  split; [reflexivity|].
  intros s. rewrite GetApkOriginFromDexPath_table.
  repeat split; intros Hv Hp.
  - apply vendor_pattern_spec in Hv. apply not_marked_product in Hp.
    rewrite Hv, Hp. reflexivity.
  - apply not_marked_vendor in Hv. apply product_pattern_spec in Hp.
    rewrite Hv, Hp. reflexivity.
  - apply not_marked_vendor in Hv. apply not_marked_product in Hp.
    rewrite Hv, Hp. reflexivity.
  - apply vendor_pattern_spec in Hv. apply product_pattern_spec in Hp.
    rewrite Hv, Hp. reflexivity.
Qed.

(* ================================================================= *)
(** ** The registry *)

Section Registry.

Context {linker : Linker} {libs : PublicLibraries}.

Implicit Types namespaces : list (jweak * NativeLoaderNamespace).

Lemma IsSameObject_refl o : IsSameObject o o = true.
Proof. apply Nat.eqb_refl. Qed.

Lemma find_namespace_app namespaces more c :
  find_namespace (namespaces ++ more) c =
  match find_namespace namespaces c with
  | Some h => Some h
  | None => find_namespace more c
  end.
Proof.
  unfold find_namespace.
  induction namespaces as [|[w h] namespaces IH]; cbn [app find fst].
  - reflexivity.
  - destruct (IsSameObject w c); [reflexivity | exact IH].
Qed.

Lemma find_namespace_single w h c :
  find_namespace [(w, h)] c = if IsSameObject w c then Some h else None.
Proof.
  unfold find_namespace. cbn [find fst]. destruct (IsSameObject w c);
    reflexivity.
Qed.

Lemma parent_walk_nearest namespaces a :
  parent_walk namespaces a =
  nearest_registered namespaces (ancestors_from a).
Proof.
  induction a as [id | id parent IH] using jobject_chain_ind;
    cbn [parent_walk ancestors_from nearest_registered].
  - destruct (find_namespace namespaces (ClassLoader id None)); reflexivity.
  - destruct (find_namespace namespaces (ClassLoader id (Some parent)));
      [reflexivity | exact IH].
Qed.

Lemma nearest_registered_some namespaces chain h :
  nearest_registered namespaces chain = Some h <->
  exists nearer a farther,
    chain = (nearer ++ a :: farther)%list /\
    Forall (fun x => find_namespace namespaces x = None) nearer /\
    find_namespace namespaces a = Some h.
Proof.
  induction chain as [|b chain IH]; cbn [nearest_registered].
  - split; [discriminate|].
    intros (nearer & a & farther & E & _). destruct nearer; discriminate.
  - destruct (find_namespace namespaces b) as [hb|] eqn:Hb.
    + split.
      * intros [= <-]. exists [], b, chain.
        repeat split; [constructor | exact Hb].
      * intros (nearer & a & farther & E & Hn & Ha).
        destruct nearer as [|x nearer]; cbn [app] in E; injection E as -> ->.
        -- congruence.
        -- inversion Hn; congruence.
    + rewrite IH. split.
      * intros (nearer & a & farther & -> & Hn & Ha).
        exists (b :: nearer), a, farther.
        repeat split; [constructor; assumption | exact Ha].
      * intros (nearer & a & farther & E & Hn & Ha).
        destruct nearer as [|x nearer]; cbn [app] in E; injection E as -> ->.
        -- congruence.
        -- exists nearer, a, farther. inversion Hn; subst.
           repeat split; assumption.
Qed.

Lemma nearest_registered_none namespaces chain :
  nearest_registered namespaces chain = None <->
  Forall (fun x => find_namespace namespaces x = None) chain.
Proof.
  induction chain as [|b chain IH]; cbn [nearest_registered].
  - split; [constructor | reflexivity].
  - destruct (find_namespace namespaces b) as [hb|] eqn:Hb.
    + split; [discriminate|]. intros H. inversion H; congruence.
    + rewrite IH. split.
      * intros H. constructor; assumption.
      * intros H. inversion H; assumption.
Qed.

(** [FindParentNamespaceByClassLoader] reads the registry and changes
    nothing. *)
Lemma FindParentNamespaceByClassLoader_run class_loader p :
  FindParentNamespaceByClassLoader class_loader p =
  (Ret (nearest_registered (namespaces_ (this p)) (ancestors class_loader)),
   p).
Proof.
  unfold FindParentNamespaceByClassLoader, ancestors, bind, get_namespaces, ret.
  destruct (GetParentClassLoader class_loader) as [parent|];
    [rewrite parent_walk_nearest|]; reflexivity.
Qed.

(** C8.  [FindParentNamespaceByClassLoader] walks the ancestor chain of the
    class loader, nearest ancestor first, and returns the handle of the
    first ancestor that has a registry entry: every nearer ancestor has
    none.  It returns null exactly when no ancestor has an entry.  For a
    chain of three ancestors of which the first has no entry and the second
    has one, it returns the handle of the second. *)
Theorem FindParentNamespaceByClassLoader_nearest class_loader p :
  let namespaces := namespaces_ (this p) in
  let result := fst (FindParentNamespaceByClassLoader class_loader p) in
  snd (FindParentNamespaceByClassLoader class_loader p) = p /\
  (forall h,
      result = Ret (Some h) <->
      exists nearer a farther,
        ancestors class_loader = (nearer ++ a :: farther)%list /\
        Forall (fun x => find_namespace namespaces x = None) nearer /\
        find_namespace namespaces a = Some h) /\
  (result = Ret None <->
   Forall (fun x => find_namespace namespaces x = None)
          (ancestors class_loader)) /\
  (forall a1 a2 a3 h2,
      ancestors class_loader = [a1; a2; a3] ->
      find_namespace namespaces a1 = None ->
      find_namespace namespaces a2 = Some h2 ->
      result = Ret (Some h2)).
Proof.
  intros namespaces result. subst result.
  rewrite FindParentNamespaceByClassLoader_run. cbn [fst snd].
  fold namespaces. repeat split.
  - intros [= H]. apply nearest_registered_some. exact H.
  - intros H. apply nearest_registered_some in H. rewrite H. reflexivity.
  - intros [= H]. apply nearest_registered_none. exact H.
  - intros H. apply nearest_registered_none in H. rewrite H. reflexivity.
  - intros a1 a2 a3 h2 -> H1 H2. cbn [nearest_registered].
    rewrite H1, H2. reflexivity.
Qed.

End Registry.

(* ================================================================= *)
(** ** Running code step by step *)

Section Steps.

Context {linker : Linker} {libs : PublicLibraries}.

Lemma wp_bind {A B} (m : M A) (f : A -> M B) p
      (R : outcome A -> Process -> Prop) (Q : outcome B -> Process -> Prop) :
  wp m p R ->
  (forall a p', R (Ret a) p' -> wp (f a) p' Q) ->
  (forall e p', R (Err e) p' -> Q (Err e) p') ->
  (forall e p', R (Abort e) p' -> Q (Abort e) p') ->
  wp (bind m f) p Q.
Proof.
  unfold wp, bind. intros Hm Hret Herr Habort.
  destruct (m p) as [[a|e|e] p']; cbn [fst snd] in *; auto.
Qed.

Lemma wp_weaken {A} (m : M A) p (Q Q' : outcome A -> Process -> Prop) :
  wp m p Q -> (forall r p', Q r p' -> Q' r p') -> wp m p Q'.
Proof. unfold wp. auto. Qed.

(** A step that always returns. *)
Lemma wp_bind_ret {A B} (m : M A) (f : A -> M B) p a p'
      (Q : outcome B -> Process -> Prop) :
  m p = (Ret a, p') -> wp (f a) p' Q -> wp (bind m f) p Q.
Proof. unfold wp, bind. intros ->. auto. Qed.

End Steps.

(* ================================================================= *)
(** ** Bootstrap *)

Section Bootstrap.

Context {linker : Linker} {libs : PublicLibraries}.

Lemma preload_cons soname rest p :
  preload (soname :: rest) p =
  if dlopen (calls p) soname
  then preload rest (record (EvDlopen soname true) p)
  else (Abort (kPreloadError ++ soname ++ ": " ++
               dlerror (calls (record (EvDlopen soname false) p))),
        record (EvDlopen soname false) p).
Proof.
  cbn [preload]. unfold bind, call, ask, fatal. cbn beta zeta iota.
  destruct (dlopen (calls p) soname); reflexivity.
Qed.

(** The preload loop leaves the object alone and tries the libraries in
    order, stopping at the first that fails to load. *)
Lemma preload_run sonames : forall p,
  this (snd (preload sonames p)) = this p /\
  exists new,
    calls (snd (preload sonames p)) = (calls p ++ new)%list /\
    match fst (preload sonames p) with
    | Ret _ => preloads new = sonames /\ existsb failed new = false
    | Err _ => False
    | Abort _ =>
        exists tried soname later,
          sonames = (preloads tried ++ soname :: later)%list /\
          new = (tried ++ [EvDlopen soname false])%list /\
          existsb failed tried = false
    end.
Proof.
  induction sonames as [|soname rest IH]; intros p.
  - split; [reflexivity|]. exists []. cbn. rewrite app_nil_r. auto.
  - rewrite preload_cons.
    destruct (dlopen (calls p) soname) eqn:Hload.
    + destruct (IH (record (EvDlopen soname true) p))
        as (Hthis & new & Hc & Hr).
      split; [exact Hthis|].
      exists (EvDlopen soname true :: new). split.
      * rewrite Hc. cbn [record calls]. rewrite <- app_assoc. reflexivity.
      * destruct (fst (preload rest (record (EvDlopen soname true) p)))
          as [u|e|e].
        -- destruct Hr as [Hp Hf]. cbn [preloads existsb failed negb orb].
           rewrite Hp, Hf. auto.
        -- exact Hr.
        -- destruct Hr as (tried & failing & later & Hs & Hn & Hf).
           exists (EvDlopen soname true :: tried), failing, later.
           cbn [preloads existsb failed negb orb app].
           rewrite Hs, Hn. auto.
    + cbn [fst snd record this calls].
      split; [reflexivity|].
      exists [EvDlopen soname false]. split; [reflexivity|].
      exists [], soname, rest. cbn. auto.
Qed.

(** [Initialize] never writes a field of the object. *)
Lemma Initialize_this p : this (snd (Initialize p)) = this p.
Proof.
  unfold Initialize, bind, get_initialized.
  destruct (initialized_ (this p)); [reflexivity|].
  apply preload_run.
Qed.

Lemma Initialize_initialized p :
  initialized_ (this p) = true -> Initialize p = (Ret tt, p).
Proof.
  intros H. unfold Initialize, bind, get_initialized. rewrite H. reflexivity.
Qed.


Lemma Split_nonempty s d : Split s d <> [].
Proof.
  induction s as [|c s IH]; cbn [Split]; [discriminate|].
  destruct (Ascii.eqb c d); [discriminate|].
  destruct (Split s d); [congruence | discriminate].
Qed.

Lemma InitPublicNamespace_boot library_path p :
  wp (InitPublicNamespace library_path) p (boot_post p).
Proof.
  unfold wp, boot_post, InitPublicNamespace, bind, ask, call, fail, ret,
    set_initialized, record.
  cbn [fst snd this calls initialized_ namespaces_].
  set (anon_path := if NativeBridgeIsPathSupported (calls p) library_path
                    then None else Some library_path).
  set (bridge_path := if NativeBridgeIsPathSupported (calls p) library_path
                      then Some library_path else None).
  destruct (android_init_anonymous_namespace
              (calls p) default_public_libraries anon_path) eqn:Hanon;
    cbn [negb fst snd this calls initialized_ namespaces_].
  - destruct (NativeBridgeInitialized _) eqn:Hb;
      cbn [fst snd this calls initialized_ namespaces_].
    + destruct (NativeBridgeInitAnonymousNamespace _ _ _) eqn:Hbridge;
        cbn [negb fst snd this calls initialized_ namespaces_];
        rewrite <- app_assoc; cbn [app]; eexists;
        (split; [reflexivity|]); (split; [reflexivity|]);
        (split; [reflexivity|]); (split; [reflexivity|]).
      * reflexivity.
      * exists [EvInitAnonymous default_public_libraries anon_path true].
        eexists. split; [reflexivity|]. split; reflexivity.
    + eexists. split; [reflexivity|]. repeat split; reflexivity.
  - eexists. split; [reflexivity|]. split; [reflexivity|].
    split; [reflexivity|]. split; [reflexivity|].
    exists []. eexists. split; [reflexivity|]. split; reflexivity.
Qed.

End Bootstrap.

(* ================================================================= *)
(** ** The runs of Create *)

Section CreateRuns.

Context {linker : Linker} {libs : PublicLibraries}.

Lemma GetApkOriginFromDexPath_no_error dex_path e :
  GetApkOriginFromDexPath dex_path <> Err e.
Proof.
  destruct dex_path as [s|]; [|discriminate].
  rewrite GetApkOriginFromDexPath_table.
  destruct (regex_search s kVendorDexPathRegex),
           (regex_search s kProductDexPathRegex); discriminate.
Qed.

(** One guarded link step of lines 232-259. *)
Lemma wp_link_step (guard : bool) app_ns target shared_libs
      (error : list (Event NativeLoaderNamespace) -> string) p :
  wp (if guard then
        linked <- link app_ns target shared_libs ;;
        if negb linked then e <- ask error ;; fail e else ret tt
      else ret tt) p
     (link_post app_ns p (if guard then [(target, shared_libs)] else [])).
Proof.
  unfold wp, link_post, link, bind, call, ask, fail, ret, record.
  destruct guard; cbn [fst snd this calls map app].
  - destruct (Link (calls p) app_ns target shared_libs);
      cbn [negb fst snd this calls]; eauto.
  - rewrite app_nil_r. auto.
Qed.

(** Every run of [Create] is one of the runs of [Create_run]. *)
Lemma Create_sound target_sdk_version class_loader is_shared
      dex_path java_library_path java_permitted_path p :
  wp (Create target_sdk_version class_loader is_shared dex_path
             java_library_path java_permitted_path) p
     (Create_run target_sdk_version class_loader is_shared dex_path
                 java_library_path java_permitted_path p).
Proof.
  unfold Create.
  fold (declared_library_path java_library_path).
  set (lp0 := declared_library_path java_library_path).
  (* line 142 *)
  eapply wp_bind
    with (R := fun r p' => r = GetApkOriginFromDexPath dex_path /\ p' = p).
  { unfold wp, lift. auto. }
  2: { intros e p' [He _]. symmetry in He.
       now apply GetApkOriginFromDexPath_no_error in He. }
  2: { intros e p' [He ->]. apply Run_ambiguous. auto. }
  intros apk_origin p' [Horigin ->]. symmetry in Horigin.
  (* lines 159-163 *)
  eapply wp_bind_ret; [reflexivity|].
  eapply wp_bind with (R := fun r p1 =>
    (boots java_library_path p = false /\ r = Ret tt /\ p1 = p) \/
    (boots java_library_path p = true /\
     InitPublicNamespace lp0 p = (r, p1))).
  { unfold wp, boots. fold lp0.
    destruct (negb (empty lp0) && negb (initialized_ (this p))).
    - right. split; [reflexivity|]. apply surjective_pairing.
    - left. auto. }
  2: { intros e p1 [(_ & He & _) | (Hb & Hinit)]; [discriminate|].
       eapply Run_boot_failed; eauto. }
  2: { intros e p1 [(_ & He & _) | (Hb & Hinit)]; [discriminate|].
       pose proof (InitPublicNamespace_boot lp0 p) as H.
       unfold wp in H. rewrite Hinit in H.
       destruct H as (boot & _ & _ & _ & []). }
  intros [] p1 Hboot.
  assert (Hbooted : booted java_library_path p p1).
  { destruct Hboot as [(Hb & _ & ->) | (Hb & Hinit)].
    - apply Booted_skip; exact Hb.
    - eapply Booted_init; eauto. }
  clear Hboot.
  (* lines 165-167 *)
  eapply wp_bind_ret; [reflexivity|].
  destruct (find_namespace (namespaces_ (this p1)) class_loader)
    as [ns|] eqn:Hfound.
  { unfold wp, bind, fatal. cbn [fst snd]. eapply Run_duplicate; eauto. }
  eapply wp_bind_ret; [reflexivity|].
  (* lines 169-217 *)
  eapply wp_bind_ret; [apply FindParentNamespaceByClassLoader_run|].
  set (policy := effective_policy apk_origin target_sdk_version is_shared lp0
                   (resolve_permitted_path java_permitted_path)).
  set (parent_ns := nearest_registered (namespaces_ (this p1))
                                       (ancestors class_loader)).
  eapply wp_bind_ret; [reflexivity|]. cbn beta.
  set (app_ns := NativeLoaderNamespace_Create (calls p1) _ _ _ _ _ _).
  set (p2 := record _ p1).
  apply wp_weaken with (Q := Scope_run class_loader policy app_ns p2);
    [| intros r p' H; eapply Run_scope; eauto].
  (* lines 218-221 *)
  destruct (IsNil app_ns) eqn:Hnil.
  { unfold wp, bind, ask, fail. cbn [fst snd]. apply Scope_nil. exact Hnil. }
  (* lines 224-230 *)
  set (b := IsBridged app_ns).
  eapply wp_bind_ret; [reflexivity|].
  set (p3 := record _ p2).
  destruct (Link (calls p2) app_ns (GetPlatformNamespace b)
                 (system_exposed_libraries policy)) eqn:Hplatform;
    cbn [negb].
  2: { unfold wp, bind, ask, fail. cbn [fst snd].
       eapply Scope_link_failed
         with (done := [])
              (later := (runtime_link b ++ vndk_link policy b ++
                         vendor_link b)%list); eauto; reflexivity. }
  assert (H3 : this p3 = this p2 /\
               calls p3 =
               (calls p2 ++
                map (linked_ok app_ns) (platform_link policy b))%list)
    by (split; reflexivity).
  clearbody p3. destruct H3 as [Hthis3 Hcalls3].
  (* lines 232-239 *)
  eapply wp_bind with (R := link_post app_ns p3 (runtime_link b)).
  { apply wp_link_step. }
  2: { intros e p4 (Hthis4 & target & shared_libs & Hstep & Hcalls4).
       eapply Scope_link_failed
         with (done := platform_link policy b)
              (later := (vndk_link policy b ++ vendor_link b)%list); eauto.
       - unfold link_plan. fold b. rewrite Hstep. reflexivity.
       - congruence.
       - rewrite Hcalls4, Hcalls3, <- app_assoc. reflexivity. }
  2: { intros e p4 [_ []]. }
  intros [] p4 [Hthis4 Hcalls4].
  (* lines 241-248 *)
  eapply wp_bind with (R := link_post app_ns p4 (vndk_link policy b)).
  { unfold vndk_link.
    destruct (unbundled_vendor_or_product_app policy &&
              negb (empty vndksp_libraries)); cbn [andb].
    - apply wp_link_step.
    - apply (wp_link_step false app_ns app_ns "" dlerror). }
  2: { intros e p5 (Hthis5 & target & shared_libs & Hstep & Hcalls5).
       eapply Scope_link_failed
         with (done := (platform_link policy b ++ runtime_link b)%list)
              (later := vendor_link b); eauto.
       - unfold link_plan. fold b. rewrite Hstep, <- app_assoc. reflexivity.
       - congruence.
       - rewrite Hcalls5, Hcalls4, Hcalls3, map_app, <- !app_assoc.
         reflexivity. }
  2: { intros e p5 [_ []]. }
  intros [] p5 [Hthis5 Hcalls5].
  (* lines 250-259 *)
  eapply wp_bind with (R := link_post app_ns p5 (vendor_link b)).
  { apply wp_link_step. }
  2: { intros e p6 (Hthis6 & target & shared_libs & Hstep & Hcalls6).
       eapply Scope_link_failed
         with (done := (platform_link policy b ++ runtime_link b ++
                        vndk_link policy b)%list)
              (later := []); eauto.
       - unfold link_plan. fold b. rewrite Hstep, <- !app_assoc. reflexivity.
       - congruence.
       - rewrite Hcalls6, Hcalls5, Hcalls4, Hcalls3, !map_app, <- !app_assoc.
         reflexivity. }
  2: { intros e p6 [_ []]. }
  intros [] p6 [Hthis6 Hcalls6].
  (* lines 261-263 *)
  unfold wp, bind, push_back, ret. cbn [fst snd].
  apply Scope_ok; [exact Hnil | congruence |].
  unfold link_plan. fold b.
  rewrite Hcalls6, Hcalls5, Hcalls4, Hcalls3, !map_app, <- !app_assoc.
  reflexivity.
Qed.

(** *** What the calls of a run show *)

Lemma scope_requests_app (h1 h2 : list (Event NativeLoaderNamespace)) :
  scope_requests (h1 ++ h2) = (scope_requests h1 ++ scope_requests h2)%list.
Proof.
  induction h1 as [|e h1 IH]; [reflexivity|].
  destruct e; cbn [app scope_requests]; rewrite IH; reflexivity.
Qed.

Lemma scopes_created_app (h1 h2 : list (Event NativeLoaderNamespace)) :
  scopes_created (h1 ++ h2) = (scopes_created h1 ++ scopes_created h2)%list.
Proof.
  induction h1 as [|e h1 IH]; [reflexivity|].
  destruct e; cbn [app scopes_created]; rewrite IH; reflexivity.
Qed.

Lemma link_attempts_app (h1 h2 : list (Event NativeLoaderNamespace)) :
  link_attempts (h1 ++ h2) = (link_attempts h1 ++ link_attempts h2)%list.
Proof.
  induction h1 as [|e h1 IH]; [reflexivity|].
  destruct e; cbn [app link_attempts]; rewrite IH; reflexivity.
Qed.

(** The bootstrap calls create no scope and link nothing. *)
Lemma boot_calls (boot : list (Event NativeLoaderNamespace)) :
  forallb is_boot boot = true ->
  scope_requests boot = [] /\ scopes_created boot = [] /\
  link_attempts boot = [].
Proof.
  induction boot as [|e boot IH]; [auto|].
  cbn [forallb]. intros H. apply andb_true_iff in H. destruct H as [He Hb].
  destruct e; try discriminate; cbn; auto.
Qed.

(** Successful links create no scope and none of them failed. *)
Lemma linked_ok_calls app_ns steps :
  scope_requests (map (linked_ok app_ns) steps) = [] /\
  scopes_created (map (linked_ok app_ns) steps) = [] /\
  link_attempts (map (linked_ok app_ns) steps) = map attempt_ok steps /\
  existsb failed (map (linked_ok app_ns) steps) = false.
Proof.
  induction steps as [|step steps (IH1 & IH2 & IH3 & IH4)]; [cbn; auto|].
  cbn [map linked_ok scope_requests scopes_created link_attempts existsb
       failed negb orb].
  rewrite IH3. auto.
Qed.

Lemma booted_facts java_library_path p p1 :
  booted java_library_path p p1 ->
  exists boot,
    calls p1 = (calls p ++ boot)%list /\
    namespaces_ (this p1) = namespaces_ (this p) /\
    forallb is_boot boot = true /\
    existsb failed boot = false /\
    (initialized_ (this p) = true -> initialized_ (this p1) = true).
Proof.
  intros [Hskip | p1' Hb Hinit].
  - exists []. rewrite app_nil_r. auto.
  - pose proof (InitPublicNamespace_boot
                  (declared_library_path java_library_path) p) as H.
    unfold wp in H. rewrite Hinit in H. cbn [fst snd] in H.
    destruct H as (boot & Hc & Hn & Hboot & Hi & Hf).
    exists boot. auto.
Qed.

Lemma Scope_run_facts class_loader policy app_ns p2 r p' :
  Scope_run class_loader policy app_ns p2 r p' ->
  exists links,
    calls p' = (calls p2 ++ links)%list /\
    initialized_ (this p') = initialized_ (this p2) /\
    scope_requests links = [] /\ scopes_created links = [] /\
    match r with
    | Ret h =>
        h = app_ns /\ IsNil app_ns = false /\
        namespaces_ (this p') =
          (namespaces_ (this p2) ++ [(class_loader, app_ns)])%list /\
        existsb failed links = false /\
        link_attempts links =
          map attempt_ok (link_plan policy (IsBridged app_ns))
    | Err _ =>
        namespaces_ (this p') = namespaces_ (this p2) /\
        ((IsNil app_ns = true /\ links = []) \/
         (IsNil app_ns = false /\ existsb failed links = true /\
          exists done target shared_libs later,
            link_plan policy (IsBridged app_ns) =
              (done ++ (target, shared_libs) :: later)%list /\
            link_attempts links =
              (map attempt_ok done ++ [(target, shared_libs, false)])%list))
    | Abort _ => False
    end.
Proof.
  intros [Hnil | done target shared_libs later e p3 Hnil Hplan Hthis Hcalls
               | p3 Hnil Hthis Hcalls].
  - exists []. rewrite app_nil_r. repeat split; auto.
  - destruct (linked_ok_calls app_ns done) as (H1 & H2 & H3 & H4).
    eexists. split; [exact Hcalls|].
    rewrite scope_requests_app, scopes_created_app, H1, H2, Hthis.
    repeat split; auto. right. split; [exact Hnil|]. split.
    + rewrite existsb_app, H4. reflexivity.
    + exists done, target, shared_libs, later. split; [exact Hplan|].
      rewrite link_attempts_app, H3. reflexivity.
  - destruct (linked_ok_calls app_ns (link_plan policy (IsBridged app_ns)))
      as (H1 & H2 & H3 & H4).
    eexists. split; [exact Hcalls|].
    cbn [registered this initialized_ namespaces_]. rewrite Hthis.
    repeat split; auto.
Qed.

(** What a call of [Create] does, by its outcome. *)
Lemma Create_facts target_sdk_version class_loader is_shared
      dex_path java_library_path java_permitted_path p :
  let run := Create target_sdk_version class_loader is_shared dex_path
                    java_library_path java_permitted_path p in
  let policy_of apk_origin :=
    effective_policy apk_origin target_sdk_version is_shared
                     (declared_library_path java_library_path)
                     (resolve_permitted_path java_permitted_path) in
  exists new,
    calls (snd run) = (calls p ++ new)%list /\
    (initialized_ (this p) = true -> initialized_ (this (snd run)) = true) /\
    match fst run with
    | Abort message =>
        namespaces_ (this (snd run)) = namespaces_ (this p) /\
        existsb failed new = false /\
        scope_requests new = [] /\ link_attempts new = [] /\
        (GetApkOriginFromDexPath dex_path = Abort message \/
         (message = kAlreadyAssociated /\
          exists apk_origin ns,
            GetApkOriginFromDexPath dex_path = Ret apk_origin /\
            find_namespace (namespaces_ (this p)) class_loader = Some ns))
    | Err e =>
        namespaces_ (this (snd run)) = namespaces_ (this p) /\
        existsb failed new = true /\
        exists apk_origin,
          GetApkOriginFromDexPath dex_path = Ret apk_origin /\
          ((boots java_library_path p = true /\
            InitPublicNamespace (declared_library_path java_library_path) p
            = (Err e, snd run) /\
            scope_requests new = [] /\ link_attempts new = []) \/
           (find_namespace (namespaces_ (this p)) class_loader = None /\
            exists app_ns,
              scope_requests new = [request (policy_of apk_origin)] /\
              scopes_created new = [app_ns] /\
              ((IsNil app_ns = true /\ link_attempts new = []) \/
               (IsNil app_ns = false /\
                exists done target shared_libs later,
                  link_plan (policy_of apk_origin) (IsBridged app_ns) =
                    (done ++ (target, shared_libs) :: later)%list /\
                  link_attempts new =
                    (map attempt_ok done ++
                     [(target, shared_libs, false)])%list))))
    | Ret app_ns =>
        exists apk_origin,
          GetApkOriginFromDexPath dex_path = Ret apk_origin /\
          find_namespace (namespaces_ (this p)) class_loader = None /\
          namespaces_ (this (snd run)) =
            (namespaces_ (this p) ++ [(class_loader, app_ns)])%list /\
          existsb failed new = false /\
          IsNil app_ns = false /\
          scope_requests new = [request (policy_of apk_origin)] /\
          scopes_created new = [app_ns] /\
          link_attempts new =
            map attempt_ok (link_plan (policy_of apk_origin)
                                      (IsBridged app_ns))
    end.
Proof.
  intros run policy_of.
  pose proof (Create_sound target_sdk_version class_loader is_shared dex_path
                           java_library_path java_permitted_path p) as Hrun.
  unfold wp in Hrun. fold run in Hrun.
  destruct Hrun as [message Hamb
                   | apk_origin e p1 Horigin Hboots Hinit
                   | apk_origin p1 ns Horigin Hbooted Hfound
                   | apk_origin p1 app_ns r p' Horigin Hbooted Hfound
                       policy parent_ns is_greylist_enabled Happ Hscope].
  - exists []. rewrite app_nil_r. repeat split; auto.
  - pose proof (InitPublicNamespace_boot
                  (declared_library_path java_library_path) p) as H.
    unfold wp in H. rewrite Hinit in H. cbn [fst snd] in H.
    destruct H as (boot & Hc & Hn & Hboot & Hi & done & last & -> & Hd & Hl).
    destruct (boot_calls _ Hboot) as (Hreq & _ & Hlinks).
    eexists. split; [exact Hc|]. split.
    { intros Hset. unfold boots in Hboots. rewrite Hset, andb_false_r in Hboots.
      discriminate. }
    split; [exact Hn|]. split.
    { rewrite existsb_app, Hd. cbn [existsb]. rewrite Hl. reflexivity. }
    exists apk_origin. split; [exact Horigin|]. left. auto.
  - destruct (booted_facts _ _ _ Hbooted) as (boot & Hc & Hn & Hboot & Hf & Hi).
    destruct (boot_calls _ Hboot) as (Hreq & _ & Hlinks).
    exists boot. split; [exact Hc|]. split; [exact Hi|].
    repeat split; auto. right. split; [reflexivity|].
    exists apk_origin, ns. rewrite <- Hn. auto.
  - destruct (booted_facts _ _ _ Hbooted) as (boot & Hc & Hn & Hboot & Hf & Hi).
    destruct (boot_calls _ Hboot) as (Hreq & Hcreated & Hlinks).
    destruct (Scope_run_facts _ _ _ _ _ _ Hscope)
      as (links & Hc' & Hi' & Hreq' & Hcreated' & Hr).
    set (created := EvCreate (namespace_name policy) (library_path policy)
                             (permitted_path policy) parent_ns is_shared
                             is_greylist_enabled app_ns) in *.
    exists (boot ++ created :: links)%list.
    split.
    { rewrite Hc'. cbn [record calls]. rewrite Hc, <- !app_assoc.
      reflexivity. }
    split.
    { intros Hset. rewrite Hi'. cbn [record this]. auto. }
    assert (Hrequests :
              scope_requests (boot ++ created :: links) = [request policy]).
    { rewrite scope_requests_app, Hreq. cbn [app scope_requests created].
      rewrite Hreq'. reflexivity. }
    assert (Hscopes : scopes_created (boot ++ created :: links) = [app_ns]).
    { rewrite scopes_created_app, Hcreated. cbn [app scopes_created created].
      rewrite Hcreated'. reflexivity. }
    assert (Hattempts : link_attempts (boot ++ created :: links) =
                        link_attempts links).
    { rewrite link_attempts_app, Hlinks. reflexivity. }
    assert (Hfailed : existsb failed (boot ++ created :: links) =
                      IsNil app_ns || existsb failed links).
    { rewrite existsb_app, Hf. reflexivity. }
    rewrite Hn in Hfound.
    destruct r as [h | e | message].
    + destruct Hr as (-> & Hnil & Hns & Hfl & Hla).
      exists apk_origin. rewrite Hfailed, Hnil, Hfl, Hattempts, Hla.
      cbn [record this] in Hns. rewrite Hn in Hns. repeat split; auto.
    + destruct Hr as (Hns & Hcases).
      cbn [record this] in Hns. rewrite Hn in Hns. split; [exact Hns|].
      split.
      { rewrite Hfailed.
        destruct Hcases as [(Hnil & _) | (_ & Hfl & _)];
          [rewrite Hnil | rewrite Hfl, orb_true_r]; reflexivity. }
      exists apk_origin. split; [exact Horigin|]. right.
      split; [exact Hfound|]. exists app_ns.
      split; [exact Hrequests|]. split; [exact Hscopes|].
      rewrite Hattempts.
      destruct Hcases as [(Hnil & ->) | (Hnil & _ & Hsteps)]; [left | right];
        auto.
    + destruct Hr.
Qed.

End CreateRuns.

(* ================================================================= *)
(** ** Colon-joined library sets *)

Lemma Split_cons c s d :
  Split (String c s) d =
  if Ascii.eqb c d then EmptyString :: Split s d
  else String c (hd EmptyString (Split s d)) :: tl (Split s d).
Proof.
  cbn [Split]. destruct (Ascii.eqb c d); [reflexivity|].
  destruct (Split s d) eqn:E; [|reflexivity].
  now apply Split_nonempty in E.
Qed.

(** Joining two sets with the delimiter joins their names. *)
Lemma Split_join a b d :
  Split (a ++ String d b) d = (Split a d ++ Split b d)%list.
Proof.
  induction a as [|c a IH].
  - cbn [append]. rewrite Split_cons, Ascii.eqb_refl. reflexivity.
  - cbn [append]. rewrite !Split_cons, IH.
    destruct (Ascii.eqb c d); [reflexivity|].
    destruct (Split a d) eqn:E; [now apply Split_nonempty in E|].
    reflexivity.
Qed.

(* ================================================================= *)
(** ** The policy *)

Section Policy.

Context {linker : Linker} {libs : PublicLibraries}.

Lemma effective_policy_vendor target_sdk_version library_path0 permitted_path0 :
  effective_policy APK_ORIGIN_VENDOR target_sdk_version false
                   library_path0 permitted_path0 =
  unbundled_app_policy library_path0 permitted_path0 kVendorLibPath.
Proof. reflexivity. Qed.

Lemma effective_policy_shared apk_origin target_sdk_version
      library_path0 permitted_path0 :
  effective_policy apk_origin target_sdk_version true
                   library_path0 permitted_path0 =
  ordinary_app_policy library_path0 permitted_path0.
Proof.
  unfold effective_policy, ordinary_app_policy.
  rewrite andb_false_r. destruct (empty extended_public_libraries);
    reflexivity.
Qed.

Lemma effective_policy_legacy_product target_sdk_version is_shared
      library_path0 permitted_path0 :
  (target_sdk_version <= 29)%N ->
  effective_policy APK_ORIGIN_PRODUCT target_sdk_version is_shared
                   library_path0 permitted_path0 =
  ordinary_app_policy library_path0 permitted_path0.
Proof.
  intros Hlegacy. unfold effective_policy, ordinary_app_policy.
  cbn [ApkOrigin_eqb orb andb].
  destruct (N.ltb_spec 29 target_sdk_version) as [Hgt | _]; [lia|].
  cbn [andb]. destruct (empty extended_public_libraries); reflexivity.
Qed.

(** The names an ordinary app sees in the platform namespace are default
    public or extended public names. *)
Lemma ordinary_app_policy_names library_path0 permitted_path0 name :
  In name (Split (system_exposed_libraries
                    (ordinary_app_policy library_path0 permitted_path0)) ":") ->
  In name (Split default_public_libraries ":") \/
  (empty extended_public_libraries = false /\
   In name (Split extended_public_libraries ":")).
Proof.
  cbn [ordinary_app_policy system_exposed_libraries].
  destruct (empty extended_public_libraries); [auto|].
  cbn [append]. rewrite Split_join, in_app_iff. intros [H | H]; auto.
Qed.

(** What a call whose dex path classifies as [apk_origin] asks of the
    linker: at most one scope, with the names and paths of the policy, and
    first of all links the platform link with the policy's exposed set. *)
Lemma Create_policy_calls target_sdk_version class_loader is_shared
      dex_path java_library_path java_permitted_path p apk_origin :
  GetApkOriginFromDexPath dex_path = Ret apk_origin ->
  let run := Create target_sdk_version class_loader is_shared dex_path
                    java_library_path java_permitted_path p in
  let policy :=
    effective_policy apk_origin target_sdk_version is_shared
                     (declared_library_path java_library_path)
                     (resolve_permitted_path java_permitted_path) in
  exists new,
    calls (snd run) = (calls p ++ new)%list /\
    (scope_requests new = [] \/ scope_requests new = [request policy]) /\
    (link_attempts new = [] \/
     exists app_ns ok more,
       scopes_created new = [app_ns] /\
       link_attempts new =
       (GetPlatformNamespace (IsBridged app_ns),
        system_exposed_libraries policy, ok) :: more) /\
    (forall app_ns,
        fst run = Ret app_ns ->
        scope_requests new = [request policy] /\
        exists more,
          link_attempts new =
          (GetPlatformNamespace (IsBridged app_ns),
           system_exposed_libraries policy, true) :: more).
Proof.
  intros Horigin run policy.
  destruct (Create_facts target_sdk_version class_loader is_shared dex_path
                         java_library_path java_permitted_path p)
    as (new & Hcalls & _ & Hr).
  fold run in Hcalls, Hr. exists new. split; [exact Hcalls|].
  destruct (fst run) as [app_ns | e | message].
  - destruct Hr as (o & Ho & _ & _ & _ & _ & Hreq & Hcreated & Hlinks).
    assert (o = apk_origin) by congruence. subst o. fold policy in Hreq, Hlinks.
    split; [|split].
    + right. exact Hreq.
    + right. exists app_ns, true. eexists. split; [exact Hcreated|].
      rewrite Hlinks. reflexivity.
    + intros h [= <-]. split; [exact Hreq|]. eexists. rewrite Hlinks.
      reflexivity.
  - destruct Hr as (_ & _ & o & Ho & Hcases).
    assert (o = apk_origin) by congruence. subst o.
    split; [|split; [|discriminate]].
    + destruct Hcases as [(_ & _ & Hreq & _) | (_ & h & Hreq & _)]; auto.
    + destruct Hcases
        as [(_ & _ & _ & Hl)
           | (_ & h & _ & Hcreated &
              [(_ & Hl) | (_ & done & t & l & later & Hplan & Hl)])];
        auto.
      right. exists h. fold policy in Hplan. unfold link_plan in Hplan.
      destruct done as [|step done]; cbn [app platform_link] in Hplan;
        rewrite Hl.
      * injection Hplan as <- <- _.
        exists false, []. split; [exact Hcreated | reflexivity].
      * injection Hplan as <- _.
        exists true. eexists. split; [exact Hcreated | reflexivity].
  - destruct Hr as (_ & _ & Hreq & Hl & _). split; [auto|].
    split; [auto | discriminate].
Qed.

(** A call that is not stopped before line 213 (the dex path classifies,
    the anonymous namespace need not be initialised or initialises, and the
    class loader has no entry yet) asks for its scope, with the names and
    paths of the policy; and unless the linker answers with a nil handle it
    attempts the platform link with the policy's exposed set. *)
Lemma Create_policy_run target_sdk_version class_loader is_shared
      dex_path java_library_path java_permitted_path p apk_origin :
  GetApkOriginFromDexPath dex_path = Ret apk_origin ->
  let run := Create target_sdk_version class_loader is_shared dex_path
                    java_library_path java_permitted_path p in
  let policy :=
    effective_policy apk_origin target_sdk_version is_shared
                     (declared_library_path java_library_path)
                     (resolve_permitted_path java_permitted_path) in
  exists new,
    calls (snd run) = (calls p ++ new)%list /\
    (scope_requests new = [] \/ scope_requests new = [request policy]) /\
    (link_attempts new = [] \/
     exists app_ns ok more,
       scopes_created new = [app_ns] /\
       link_attempts new =
       (GetPlatformNamespace (IsBridged app_ns),
        system_exposed_libraries policy, ok) :: more) /\
    (forall app_ns,
        fst run = Ret app_ns ->
        scope_requests new = [request policy] /\
        exists more,
          link_attempts new =
          (GetPlatformNamespace (IsBridged app_ns),
           system_exposed_libraries policy, true) :: more) /\
    (find_namespace (namespaces_ (this p)) class_loader = None ->
     boots java_library_path p = false \/
     fst (InitPublicNamespace (declared_library_path java_library_path) p)
     = Ret tt ->
     scope_requests new = [request policy] /\
     exists app_ns,
       scopes_created new = [app_ns] /\
       if IsNil app_ns then link_attempts new = []
       else exists ok more,
           link_attempts new =
           (GetPlatformNamespace (IsBridged app_ns),
            system_exposed_libraries policy, ok) :: more).
Proof.
  intros Horigin run policy.
  destruct (Create_policy_calls target_sdk_version class_loader is_shared
              dex_path java_library_path java_permitted_path p _ Horigin)
    as (new & Hcalls & Hreq & Hlinks & Hret).
  fold run policy in Hcalls, Hreq, Hlinks, Hret.
  exists new. split; [exact Hcalls|]. split; [exact Hreq|].
  split; [exact Hlinks|]. split; [exact Hret|].
  intros Hnone Hboot.
  destruct (Create_facts target_sdk_version class_loader is_shared dex_path
                         java_library_path java_permitted_path p)
    as (new' & Hcalls' & _ & Hr).
  fold run in Hcalls', Hr.
  assert (new' = new)
    by (apply (app_inv_head (calls p)); congruence).
  subst new'.
  destruct (fst run) as [app_ns | e | message].
  - destruct Hr as (o & Ho & _ & _ & _ & Hnil & Hrq & Hcreated & Hl).
    assert (o = apk_origin) by congruence. subst o.
    fold policy in Hrq, Hl.
    split; [exact Hrq|]. exists app_ns. split; [exact Hcreated|].
    rewrite Hnil, Hl. exists true. eexists. reflexivity.
  - destruct Hr as (_ & _ & o & Ho &
                    [(Hb & Hinit & _)
                    | (_ & h & Hrq & Hcreated & Hcases)]).
    + destruct Hboot as [Hskip | Hok]; [congruence|].
      rewrite Hinit in Hok. discriminate.
    + assert (o = apk_origin) by congruence. subst o.
      fold policy in Hrq, Hcases.
      split; [exact Hrq|]. exists h. split; [exact Hcreated|].
      destruct Hcases as [(Hnil & Hl)
                         | (Hnil & done & t & l & later & Hplan & Hl)];
        rewrite Hnil; [exact Hl|].
      unfold link_plan in Hplan. rewrite Hl.
      destruct done as [|step done]; cbn [app platform_link] in Hplan.
      * injection Hplan as <- <- _. exists false, []. reflexivity.
      * injection Hplan as <- _. exists true. eexists. reflexivity.
  - destruct Hr as (_ & _ & _ & _ &
                    [Hamb | (_ & o & ns & _ & Hfound)]); congruence.
Qed.

End Policy.

(* ================================================================= *)
(** ** The properties of the policy engine *)

Section Properties.

Context {linker : Linker} {libs : PublicLibraries}.

(** C1.  A call of [Create] for a class loader that is not shared and whose
    dex path classifies as vendor, at any target SDK version, computes the
    policy of an unbundled vendor app: "/vendor/LIB" is appended to the
    library path and to the permitted path, the platform-exposed set is the
    default public set joined with the LLNDK set (its names are the
    default public names followed by the LLNDK names), and the namespace is
    named "vendor-classloader-namespace".  The call uses these values:
    unless it is stopped before line 213 (the anonymous namespace fails to
    initialise, or the class loader has an entry already) it asks the
    linker for one scope with that name and those paths, and unless the
    linker answers with a nil handle its first link is the platform link
    exposing that set; no scope is asked for with other values and no
    other link comes first. *)
Theorem Create_unbundled_vendor_policy target_sdk_version class_loader
        dex_path java_library_path java_permitted_path p :
  GetApkOriginFromDexPath dex_path = Ret APK_ORIGIN_VENDOR ->
  let run := Create target_sdk_version class_loader false dex_path
                    java_library_path java_permitted_path p in
  let library_path0 := declared_library_path java_library_path in
  let permitted_path0 := resolve_permitted_path java_permitted_path in
  let exposed := default_public_libraries ++ ":" ++ llndk_libraries in
  effective_policy APK_ORIGIN_VENDOR target_sdk_version false
                   library_path0 permitted_path0 =
  {| library_path := library_path0 ++ ":" ++ "/vendor/" ++ LIB;
     permitted_path := permitted_path0 ++ ":" ++ "/vendor/" ++ LIB;
     system_exposed_libraries := exposed;
     namespace_name := "vendor-classloader-namespace";
     unbundled_vendor_or_product_app := true |} /\
  Split exposed ":" =
    (Split default_public_libraries ":" ++ Split llndk_libraries ":")%list /\
  exists new,
    calls (snd run) = (calls p ++ new)%list /\
    (scope_requests new = [] \/
     scope_requests new =
       [("vendor-classloader-namespace",
         library_path0 ++ ":" ++ "/vendor/" ++ LIB,
         permitted_path0 ++ ":" ++ "/vendor/" ++ LIB)]) /\
    (link_attempts new = [] \/
     exists app_ns ok more,
       scopes_created new = [app_ns] /\
       link_attempts new =
         (GetPlatformNamespace (IsBridged app_ns), exposed, ok) :: more) /\
    (forall app_ns,
        fst run = Ret app_ns ->
        scope_requests new <> [] /\ link_attempts new <> []) /\
    (find_namespace (namespaces_ (this p)) class_loader = None ->
     boots java_library_path p = false \/
     fst (InitPublicNamespace library_path0 p) = Ret tt ->
     scope_requests new =
       [("vendor-classloader-namespace",
         library_path0 ++ ":" ++ "/vendor/" ++ LIB,
         permitted_path0 ++ ":" ++ "/vendor/" ++ LIB)] /\
     exists app_ns,
       scopes_created new = [app_ns] /\
       if IsNil app_ns then link_attempts new = []
       else exists ok more,
           link_attempts new =
           (GetPlatformNamespace (IsBridged app_ns), exposed, ok) :: more).
Proof.
  intros Hvendor run library_path0 permitted_path0 exposed.
  split; [reflexivity|]. split; [apply Split_join|].
  destruct (Create_policy_run target_sdk_version class_loader false dex_path
              java_library_path java_permitted_path p _ Hvendor)
    as (new & Hcalls & Hreq & Hlinks & Hret & Hreach).
  rewrite effective_policy_vendor in Hreq, Hlinks, Hret, Hreach.
  exists new. split; [exact Hcalls|]. split; [exact Hreq|].
  split; [exact Hlinks|]. split; [|exact Hreach].
  intros app_ns Hrun. destruct (Hret app_ns Hrun) as (Hr & more & Hl).
  rewrite Hr, Hl. split; discriminate.
Qed.

(** C2, as the code has it.  A call of [Create] for a shared class loader
    whose dex path classifies as vendor takes the branch of an ordinary
    app: paths as declared, the ordinary namespace name, and a
    platform-exposed set that is the default public set, joined with the
    extended public set when that set is not empty.  The set is not
    widened by the LLNDK list: the policy is the same whatever that list
    holds, and a name of the LLNDK list is exposed only if it is a default
    public or an extended public name as well.  The call uses these
    values: unless it is stopped before line 213 it asks the linker for
    one scope under the ordinary name with the declared paths, and unless
    the linker answers with a nil handle its first link is the platform
    link exposing that set. *)
Theorem Create_shared_vendor_policy target_sdk_version class_loader
        dex_path java_library_path java_permitted_path p :
  GetApkOriginFromDexPath dex_path = Ret APK_ORIGIN_VENDOR ->
  let run := Create target_sdk_version class_loader true dex_path
                    java_library_path java_permitted_path p in
  let library_path0 := declared_library_path java_library_path in
  let permitted_path0 := resolve_permitted_path java_permitted_path in
  let exposed :=
    if empty extended_public_libraries then default_public_libraries
    else default_public_libraries ++ ":" ++ extended_public_libraries in
  effective_policy APK_ORIGIN_VENDOR target_sdk_version true
                   library_path0 permitted_path0 =
  {| library_path := library_path0;
     permitted_path := permitted_path0;
     system_exposed_libraries := exposed;
     namespace_name := "classloader-namespace";
     unbundled_vendor_or_product_app := false |} /\
  (forall name,
      In name (Split exposed ":") ->
      In name (Split default_public_libraries ":") \/
      (empty extended_public_libraries = false /\
       In name (Split extended_public_libraries ":"))) /\
  (forall name,
      In name (Split llndk_libraries ":") ->
      In name (Split exposed ":") ->
      In name (Split default_public_libraries ":") \/
      (empty extended_public_libraries = false /\
       In name (Split extended_public_libraries ":"))) /\
  (forall other_llndk,
      effective_policy (libs := with_llndk_libraries other_llndk libs)
                       APK_ORIGIN_VENDOR target_sdk_version true
                       library_path0 permitted_path0 =
      effective_policy APK_ORIGIN_VENDOR target_sdk_version true
                       library_path0 permitted_path0) /\
  exists new,
    calls (snd run) = (calls p ++ new)%list /\
    (scope_requests new = [] \/
     scope_requests new =
       [("classloader-namespace", library_path0, permitted_path0)]) /\
    (link_attempts new = [] \/
     exists app_ns ok more,
       scopes_created new = [app_ns] /\
       link_attempts new =
         (GetPlatformNamespace (IsBridged app_ns), exposed, ok) :: more) /\
    (forall app_ns, fst run = Ret app_ns -> link_attempts new <> []) /\
    (find_namespace (namespaces_ (this p)) class_loader = None ->
     boots java_library_path p = false \/
     fst (InitPublicNamespace library_path0 p) = Ret tt ->
     scope_requests new =
       [("classloader-namespace", library_path0, permitted_path0)] /\
     exists app_ns,
       scopes_created new = [app_ns] /\
       if IsNil app_ns then link_attempts new = []
       else exists ok more,
           link_attempts new =
           (GetPlatformNamespace (IsBridged app_ns), exposed, ok) :: more).
Proof.
  intros Hvendor run library_path0 permitted_path0 exposed.
  split; [apply effective_policy_shared|].
  split; [apply (ordinary_app_policy_names library_path0 permitted_path0)|].
  split.
  { intros name _.
    apply (ordinary_app_policy_names library_path0 permitted_path0). }
  split.
  { intros other_llndk.
    rewrite (effective_policy_shared
               (libs := with_llndk_libraries other_llndk libs)),
      effective_policy_shared.
    reflexivity. }
  destruct (Create_policy_run target_sdk_version class_loader true dex_path
              java_library_path java_permitted_path p _ Hvendor)
    as (new & Hcalls & Hreq & Hlinks & Hret & Hreach).
  rewrite effective_policy_shared in Hreq, Hlinks, Hret, Hreach.
  exists new. split; [exact Hcalls|]. split; [exact Hreq|].
  split; [exact Hlinks|]. split; [|exact Hreach].
  intros app_ns Hrun. destruct (Hret app_ns Hrun) as (_ & more & Hl).
  rewrite Hl. discriminate.
Qed.

(** C7.  A call of [Create] for a class loader that is not shared, whose
    dex path classifies as product and whose target SDK version is at most
    29, does not take the unbundled branch: the library path and the
    permitted path are the declared ones (no product directory is
    appended), the LLNDK set is not added (the policy is the same whatever
    the LLNDK list holds), the platform-exposed set is the default public
    set joined with the extended public set when that set is not empty,
    and no link to the "vndk" namespace is planned.  The call uses these
    values: unless it is stopped before line 213 it asks the linker for
    one scope under the ordinary name with the declared paths, and unless
    the linker answers with a nil handle its first link is the platform
    link exposing that set, extended public libraries included. *)
Theorem Create_legacy_product_policy target_sdk_version class_loader
        dex_path java_library_path java_permitted_path p :
  GetApkOriginFromDexPath dex_path = Ret APK_ORIGIN_PRODUCT ->
  (target_sdk_version <= 29)%N ->
  let run := Create target_sdk_version class_loader false dex_path
                    java_library_path java_permitted_path p in
  let library_path0 := declared_library_path java_library_path in
  let permitted_path0 := resolve_permitted_path java_permitted_path in
  let exposed :=
    if empty extended_public_libraries then default_public_libraries
    else default_public_libraries ++ ":" ++ extended_public_libraries in
  let policy := effective_policy APK_ORIGIN_PRODUCT target_sdk_version false
                                 library_path0 permitted_path0 in
  policy =
  {| library_path := library_path0;
     permitted_path := permitted_path0;
     system_exposed_libraries := exposed;
     namespace_name := "classloader-namespace";
     unbundled_vendor_or_product_app := false |} /\
  (forall name,
      In name (Split exposed ":") ->
      In name (Split default_public_libraries ":") \/
      (empty extended_public_libraries = false /\
       In name (Split extended_public_libraries ":"))) /\
  (forall other_llndk,
      effective_policy (libs := with_llndk_libraries other_llndk libs)
                       APK_ORIGIN_PRODUCT target_sdk_version false
                       library_path0 permitted_path0 = policy) /\
  (forall is_bridged, vndk_link policy is_bridged = []) /\
  exists new,
    calls (snd run) = (calls p ++ new)%list /\
    (scope_requests new = [] \/
     scope_requests new =
       [("classloader-namespace", library_path0, permitted_path0)]) /\
    (link_attempts new = [] \/
     exists app_ns ok more,
       scopes_created new = [app_ns] /\
       link_attempts new =
         (GetPlatformNamespace (IsBridged app_ns), exposed, ok) :: more) /\
    (forall app_ns,
        fst run = Ret app_ns ->
        scope_requests new <> [] /\ link_attempts new <> []) /\
    (find_namespace (namespaces_ (this p)) class_loader = None ->
     boots java_library_path p = false \/
     fst (InitPublicNamespace library_path0 p) = Ret tt ->
     scope_requests new =
       [("classloader-namespace", library_path0, permitted_path0)] /\
     exists app_ns,
       scopes_created new = [app_ns] /\
       if IsNil app_ns then link_attempts new = []
       else exists ok more,
           link_attempts new =
           (GetPlatformNamespace (IsBridged app_ns), exposed, ok) :: more).
Proof.
  intros Hproduct Hlegacy run library_path0 permitted_path0 exposed policy.
  assert (Hpolicy : policy = ordinary_app_policy library_path0 permitted_path0)
    by (apply effective_policy_legacy_product; exact Hlegacy).
  split; [exact Hpolicy|].
  split; [apply (ordinary_app_policy_names library_path0 permitted_path0)|].
  split.
  { intros other_llndk. rewrite Hpolicy.
    apply (effective_policy_legacy_product
             (libs := with_llndk_libraries other_llndk libs)).
    exact Hlegacy. }
  split; [intros is_bridged; rewrite Hpolicy; reflexivity|].
  destruct (Create_policy_run target_sdk_version class_loader false dex_path
              java_library_path java_permitted_path p _ Hproduct)
    as (new & Hcalls & Hreq & Hlinks & Hret & Hreach).
  fold library_path0 permitted_path0 policy in Hreq, Hlinks, Hret, Hreach.
  rewrite Hpolicy in Hreq, Hlinks, Hret, Hreach.
  exists new. split; [exact Hcalls|]. split; [exact Hreq|].
  split; [exact Hlinks|]. split; [|exact Hreach].
  intros app_ns Hrun. destruct (Hret app_ns Hrun) as (Hr & more & Hl).
  rewrite Hr, Hl. split; discriminate.
Qed.

(** C5.  [Create] changes the registry all or nothing.  The calls of a run
    that returns a handle all succeeded, and the registry is the old one
    with the pair of the class loader and the returned handle appended.  A
    run in which a primitive fails (initialising the anonymous namespace,
    natively or through the bridge, creating the scope, or any link)
    returns the error and leaves the registry as it was; so does a run that
    aborts. *)
Theorem Create_atomic target_sdk_version class_loader is_shared
        dex_path java_library_path java_permitted_path p :
  let run := Create target_sdk_version class_loader is_shared dex_path
                    java_library_path java_permitted_path p in
  exists new,
    calls (snd run) = (calls p ++ new)%list /\
    match fst run with
    | Ret app_ns =>
        existsb failed new = false /\
        namespaces_ (this (snd run)) =
          (namespaces_ (this p) ++
           [(NewWeakGlobalRef class_loader, app_ns)])%list
    | Err _ =>
        existsb failed new = true /\
        namespaces_ (this (snd run)) = namespaces_ (this p)
    | Abort _ =>
        existsb failed new = false /\
        namespaces_ (this (snd run)) = namespaces_ (this p)
    end.
Proof.
  intros run.
  destruct (Create_facts target_sdk_version class_loader is_shared dex_path
                         java_library_path java_permitted_path p)
    as (new & Hcalls & _ & Hr).
  fold run in Hcalls, Hr. exists new. split; [exact Hcalls|].
  destruct (fst run) as [app_ns | e | message].
  - destruct Hr as (_ & _ & _ & Hns & Hf & _). auto.
  - destruct Hr as (Hns & Hf & _). auto.
  - destruct Hr as (Hns & Hf & _). auto.
Qed.

(** C10.  After a call of [Create] that returns a handle, the registry is
    the old one with one entry appended, the pair of the class loader and
    the returned handle; looking the class loader up returns that handle;
    and every other lookup answers as before: an entry that existed is
    neither overwritten nor moved. *)
Theorem Create_registers target_sdk_version class_loader is_shared
        dex_path java_library_path java_permitted_path p app_ns :
  let run := Create target_sdk_version class_loader is_shared dex_path
                    java_library_path java_permitted_path p in
  fst run = Ret app_ns ->
  namespaces_ (this (snd run)) =
    (namespaces_ (this p) ++ [(NewWeakGlobalRef class_loader, app_ns)])%list /\
  FindNamespaceByClassLoader class_loader (snd run) =
    (Ret (Some app_ns), snd run) /\
  (forall other,
      IsSameObject class_loader other = false ->
      find_namespace (namespaces_ (this (snd run))) other =
      find_namespace (namespaces_ (this p)) other) /\
  (forall other ns,
      find_namespace (namespaces_ (this p)) other = Some ns ->
      find_namespace (namespaces_ (this (snd run))) other = Some ns).
Proof.
  intros run Hret.
  destruct (Create_facts target_sdk_version class_loader is_shared dex_path
                         java_library_path java_permitted_path p)
    as (new & _ & _ & Hr).
  fold run in Hr. rewrite Hret in Hr.
  destruct Hr as (_ & _ & Hnone & Hns & _).
  split; [exact Hns|].
  unfold FindNamespaceByClassLoader, bind, get_namespaces, ret.
  rewrite Hns. repeat split.
  - rewrite find_namespace_app, Hnone, find_namespace_single,
      IsSameObject_refl. reflexivity.
  - intros other Hother.
    rewrite find_namespace_app, find_namespace_single, Hother.
    destruct (find_namespace (namespaces_ (this p)) other); reflexivity.
  - intros other ns Hsome. rewrite find_namespace_app, Hsome. reflexivity.
Qed.

(** C4, as the code has it.  When the class loader already has a registry
    entry, [Create] returns no handle and leaves the registry as it was.
    If the dex path is ambiguous the classifier aborts first.  Otherwise
    the call aborts on the duplicate-registration check, unless it first
    has to initialise the anonymous namespace (a non-empty library path
    while [initialized_] is clear) and that fails: then it returns the
    error of the initialisation. *)
Theorem Create_duplicate target_sdk_version class_loader is_shared
        dex_path java_library_path java_permitted_path p ns :
  find_namespace (namespaces_ (this p)) class_loader = Some ns ->
  let run := Create target_sdk_version class_loader is_shared dex_path
                    java_library_path java_permitted_path p in
  returned (fst run) = false /\
  namespaces_ (this (snd run)) = namespaces_ (this p) /\
  match GetApkOriginFromDexPath dex_path with
  | Ret _ =>
      if boots java_library_path p then
        match fst (InitPublicNamespace
                     (declared_library_path java_library_path) p) with
        | Ret _ => fst run = Abort kAlreadyAssociated
        | Err e => fst run = Err e
        | Abort _ => False
        end
      else run = (Abort kAlreadyAssociated, p)
  | Err _ => False
  | Abort message => run = (Abort message, p)
  end.
Proof.
  intros Hfound run.
  pose proof (Create_sound target_sdk_version class_loader is_shared dex_path
                           java_library_path java_permitted_path p) as Hrun.
  unfold wp in Hrun. fold run in Hrun.
  assert (Hpair : run = (fst run, snd run)) by apply surjective_pairing.
  destruct Hrun as [message Hamb
                   | apk_origin e p1 Horigin Hboots Hinit
                   | apk_origin p1 ns' Horigin Hbooted Hfound'
                   | apk_origin p1 app_ns r p' Horigin Hbooted Hfound'
                       policy parent_ns is_greylist_enabled Happ Hscope].
  - rewrite Hamb. auto.
  - rewrite Horigin, Hboots, Hinit. cbn [fst].
    pose proof (InitPublicNamespace_boot
                  (declared_library_path java_library_path) p) as H.
    unfold wp in H. rewrite Hinit in H. destruct H as (boot & _ & Hn & _).
    auto.
  - rewrite Horigin. destruct Hbooted as [Hskip | p1 Hb Hinit].
    + rewrite Hskip. auto.
    + rewrite Hb, Hinit. cbn [fst].
      pose proof (InitPublicNamespace_boot
                    (declared_library_path java_library_path) p) as H.
      unfold wp in H. rewrite Hinit in H. destruct H as (boot & _ & Hn & _).
      auto.
  - destruct (booted_facts _ _ _ Hbooted) as (boot & _ & Hn & _).
    rewrite Hn in Hfound'. congruence.
Qed.




End Properties.

(* ================================================================= *)
(** ** The properties on sample runs *)

Lemma GetApkOriginFromDexPath_classifies_witness :
  GetApkOriginFromDexPath (Some "/vendor/app/Radio/Radio.apk") =
    Ret APK_ORIGIN_VENDOR /\
  GetApkOriginFromDexPath
    (Some "/data/app/A/base.apk:/system/product/app/B/B.apk") =
    Ret APK_ORIGIN_PRODUCT /\
  GetApkOriginFromDexPath (Some "/data/app/vendor/product/base.apk") =
    Ret APK_ORIGIN_DEFAULT /\
  GetApkOriginFromDexPath (Some "/product/app/B/B.apk:/vendor/app/V/V.apk") =
    Abort (kBothPartitions ++ "/product/app/B/B.apk:/vendor/app/V/V.apk").
Proof.
  destruct GetApkOriginFromDexPath_classifies as [_ H].
  assert (Hno_vendor : forall s,
             regex_search s kVendorDexPathRegex = false ->
             ~ marked vendor_marker s).
  { intros s E M. apply vendor_pattern_spec in M. congruence. }
  assert (Hno_product : forall s,
             regex_search s kProductDexPathRegex = false ->
             ~ marked product_marker s).
  { intros s E M. apply product_pattern_spec in M. congruence. }
  split; [|split; [|split]].
  - apply (H "/vendor/app/Radio/Radio.apk").
    + left. reflexivity.
    + apply Hno_product. reflexivity.
  - apply (H "/data/app/A/base.apk:/system/product/app/B/B.apk").
    + apply Hno_vendor. reflexivity.
    + right. exists "/data/app/A/base.apk", "/system/product/app/B/B.apk".
      split; reflexivity.
  - apply (H "/data/app/vendor/product/base.apk").
    + apply Hno_vendor. reflexivity.
    + apply Hno_product. reflexivity.
  - apply (H "/product/app/B/B.apk:/vendor/app/V/V.apk").
    + right. exists "/product/app/B/B.apk", "/vendor/app/V/V.apk".
      split; reflexivity.
    + left. reflexivity.
Defined.

(** Three ancestors, of which only the second is registered. *)
Lemma FindParentNamespaceByClassLoader_nearest_witness :
  let p := Sample.process_with false [(Sample.system_class_loader, 7)] in
  ancestors Sample.app_class_loader =
    [Sample.shared_loader; Sample.system_class_loader;
     Sample.boot_class_loader] /\
  fst (FindParentNamespaceByClassLoader
         (linker := Sample.linker true) Sample.app_class_loader p) =
    Ret (Some 7).
Proof.
  intros p. split; [reflexivity|].
  apply (proj2 (proj2 (proj2
           (FindParentNamespaceByClassLoader_nearest
              (linker := Sample.linker true) Sample.app_class_loader p)))
           Sample.shared_loader Sample.system_class_loader
           Sample.boot_class_loader 7);
    reflexivity.
Defined.

(** A first call for a vendor app, from a fresh process. *)
Lemma Create_unbundled_vendor_policy_witness :
  let run := Create (linker := Sample.linker true) (libs := Sample.libs)
                    28 Sample.app_class_loader false
                    (Some "/vendor/app/Radio/Radio.apk")
                    (Some "/vendor/app/Radio/lib/arm64") None
                    fresh_process in
  GetApkOriginFromDexPath (Some "/vendor/app/Radio/Radio.apk") =
    Ret APK_ORIGIN_VENDOR /\
  find_namespace
    (namespaces_ (this (fresh_process (linker := Sample.linker true))))
    Sample.app_class_loader = None /\
  fst (InitPublicNamespace (linker := Sample.linker true)
                           (libs := Sample.libs)
                           "/vendor/app/Radio/lib/arm64" fresh_process) =
    Ret tt /\
  effective_policy (libs := Sample.libs) APK_ORIGIN_VENDOR 28 false
                   "/vendor/app/Radio/lib/arm64" "/data:/mnt/expand" =
  {| library_path := "/vendor/app/Radio/lib/arm64:/vendor/lib64";
     permitted_path := "/data:/mnt/expand:/vendor/lib64";
     system_exposed_libraries := "libandroid.so:libc.so:libvndksupport.so";
     namespace_name := "vendor-classloader-namespace";
     unbundled_vendor_or_product_app := true |} /\
  scope_requests (calls (snd run)) =
    [("vendor-classloader-namespace",
      "/vendor/app/Radio/lib/arm64:/vendor/lib64",
      "/data:/mnt/expand:/vendor/lib64")] /\
  exists ok more,
    link_attempts (calls (snd run)) =
      (1, "libandroid.so:libc.so:libvndksupport.so", ok) :: more.
Proof.
  intros run.
  destruct (Create_unbundled_vendor_policy
              (linker := Sample.linker true) (libs := Sample.libs)
              28 Sample.app_class_loader (Some "/vendor/app/Radio/Radio.apk")
              (Some "/vendor/app/Radio/lib/arm64") None fresh_process
              eq_refl)
    as (Hpolicy & _ & new & Hcalls & _ & _ & _ & Hreach).
  assert (Hnew : new = calls (snd run)) by (symmetry; exact Hcalls).
  subst new.
  destruct (Hreach eq_refl (or_intror eq_refl))
    as (Hreq & app_ns & Hcreated & Hlinks).
  assert (Ha : [11] = [app_ns]) by exact Hcreated.
  injection Ha as <-.
  split; [reflexivity|]. split; [reflexivity|]. split; [reflexivity|].
  split; [exact Hpolicy|]. split; [exact Hreq | exact Hlinks].
Defined.

(** A first call for a vendor app with a shared class loader, from a fresh
    process. *)
Lemma Create_shared_vendor_policy_witness :
  let run := Create (linker := Sample.linker true) (libs := Sample.libs)
                    28 Sample.app_class_loader true
                    (Some "/vendor/app/Radio/Radio.apk")
                    (Some "/vendor/app/Radio/lib/arm64") None
                    fresh_process in
  GetApkOriginFromDexPath (Some "/vendor/app/Radio/Radio.apk") =
    Ret APK_ORIGIN_VENDOR /\
  find_namespace
    (namespaces_ (this (fresh_process (linker := Sample.linker true))))
    Sample.app_class_loader = None /\
  fst (InitPublicNamespace (linker := Sample.linker true)
                           (libs := Sample.libs)
                           "/vendor/app/Radio/lib/arm64" fresh_process) =
    Ret tt /\
  effective_policy (libs := Sample.libs) APK_ORIGIN_VENDOR 28 true
                   "/vendor/app/Radio/lib/arm64" "/data:/mnt/expand" =
  {| library_path := "/vendor/app/Radio/lib/arm64";
     permitted_path := "/data:/mnt/expand";
     system_exposed_libraries := "libandroid.so:libc.so:libextra.so";
     namespace_name := "classloader-namespace";
     unbundled_vendor_or_product_app := false |} /\
  scope_requests (calls (snd run)) =
    [("classloader-namespace", "/vendor/app/Radio/lib/arm64",
      "/data:/mnt/expand")] /\
  exists ok more,
    link_attempts (calls (snd run)) =
      (1, "libandroid.so:libc.so:libextra.so", ok) :: more.
Proof.
  intros run.
  destruct (Create_shared_vendor_policy
              (linker := Sample.linker true) (libs := Sample.libs)
              28 Sample.app_class_loader (Some "/vendor/app/Radio/Radio.apk")
              (Some "/vendor/app/Radio/lib/arm64") None fresh_process
              eq_refl)
    as (Hpolicy & _ & _ & _ & new & Hcalls & _ & _ & _ & Hreach).
  assert (Hnew : new = calls (snd run)) by (symmetry; exact Hcalls).
  subst new.
  destruct (Hreach eq_refl (or_intror eq_refl))
    as (Hreq & app_ns & Hcreated & Hlinks).
  assert (Ha : [11] = [app_ns]) by exact Hcreated.
  injection Ha as <-.
  split; [reflexivity|]. split; [reflexivity|]. split; [reflexivity|].
  split; [exact Hpolicy|]. split; [exact Hreq | exact Hlinks].
Defined.

(** Against C2: with "libc.so" on the default public list and on the LLNDK
    list, the platform link of a shared vendor app exposes a set that
    includes that LLNDK name. *)
Lemma Create_shared_vendor_exposes_public_llndk :
  let run := Create (linker := Sample.linker true)
                    (libs := libs_with_public_llndk)
                    28 Sample.app_class_loader true
                    (Some "/vendor/app/Radio/Radio.apk")
                    (Some "/vendor/app/Radio/lib/arm64") None
                    fresh_process in
  GetApkOriginFromDexPath (Some "/vendor/app/Radio/Radio.apk") =
    Ret APK_ORIGIN_VENDOR /\
  fst run = Ret 11 /\
  link_attempts (calls (snd run)) =
    [(1, "libandroid.so:libc.so:libextra.so", true);
     (2, "libicuuc.so", true);
     (0, "libvendorpub.so", true)] /\
  In "libc.so"
     (Split (llndk_libraries (PublicLibraries := libs_with_public_llndk))
            ":") /\
  In "libc.so" (Split "libandroid.so:libc.so:libextra.so" ":").
Proof.
  vm_compute. repeat split; auto.
Qed.

(** A first call for a product app that targets SDK 29, from a fresh
    process. *)
Lemma Create_legacy_product_policy_witness :
  let run := Create (linker := Sample.linker true) (libs := Sample.libs)
                    29 Sample.app_class_loader false
                    (Some "/product/app/Notes/Notes.apk")
                    (Some "/product/app/Notes/lib/arm64") None
                    fresh_process in
  GetApkOriginFromDexPath (Some "/product/app/Notes/Notes.apk") =
    Ret APK_ORIGIN_PRODUCT /\
  (29 <= 29)%N /\
  find_namespace
    (namespaces_ (this (fresh_process (linker := Sample.linker true))))
    Sample.app_class_loader = None /\
  fst (InitPublicNamespace (linker := Sample.linker true)
                           (libs := Sample.libs)
                           "/product/app/Notes/lib/arm64" fresh_process) =
    Ret tt /\
  effective_policy (libs := Sample.libs) APK_ORIGIN_PRODUCT 29 false
                   "/product/app/Notes/lib/arm64" "/data:/mnt/expand" =
  {| library_path := "/product/app/Notes/lib/arm64";
     permitted_path := "/data:/mnt/expand";
     system_exposed_libraries := "libandroid.so:libc.so:libextra.so";
     namespace_name := "classloader-namespace";
     unbundled_vendor_or_product_app := false |} /\
  scope_requests (calls (snd run)) =
    [("classloader-namespace", "/product/app/Notes/lib/arm64",
      "/data:/mnt/expand")] /\
  exists ok more,
    link_attempts (calls (snd run)) =
      (1, "libandroid.so:libc.so:libextra.so", ok) :: more.
Proof.
  intros run.
  assert (Hlegacy : (29 <= 29)%N) by lia.
  destruct (Create_legacy_product_policy
              (linker := Sample.linker true) (libs := Sample.libs)
              29 Sample.app_class_loader
              (Some "/product/app/Notes/Notes.apk")
              (Some "/product/app/Notes/lib/arm64") None fresh_process
              eq_refl Hlegacy)
    as (Hpolicy & _ & _ & _ & new & Hcalls & _ & _ & _ & Hreach).
  assert (Hnew : new = calls (snd run)) by (symmetry; exact Hcalls).
  subst new.
  destruct (Hreach eq_refl (or_intror eq_refl))
    as (Hreq & app_ns & Hcreated & Hlinks).
  assert (Ha : [11] = [app_ns]) by exact Hcreated.
  injection Ha as <-.
  split; [reflexivity|]. split; [exact Hlegacy|].
  split; [reflexivity|]. split; [reflexivity|].
  split; [exact Hpolicy|]. split; [exact Hreq | exact Hlinks].
Defined.

(** A first call for the application class loader, from a fresh process. *)
Lemma Create_registers_witness :
  let run := Create (linker := Sample.linker true) (libs := Sample.libs)
                    28 Sample.app_class_loader false
                    (Some "/data/app/A/base.apk") (Some "/data/app/A/lib")
                    None fresh_process in
  fst run = Ret 11 /\
  namespaces_ (this (snd run)) = [(Sample.app_class_loader, 11)] /\
  FindNamespaceByClassLoader Sample.app_class_loader (snd run) =
    (Ret (Some 11), snd run).
Proof.
  intros run.
  assert (Hret : fst run = Ret 11) by reflexivity.
  split; [exact Hret|].
  destruct (Create_registers
              (linker := Sample.linker true) (libs := Sample.libs)
              28 Sample.app_class_loader false
              (Some "/data/app/A/base.apk") (Some "/data/app/A/lib")
              None fresh_process 11 Hret) as (Hns & Hfind & _).
  split; [exact Hns | exact Hfind].
Defined.

(** A second call for a class loader that is registered, in a process
    whose anonymous namespace is initialised. *)
Lemma Create_duplicate_witness :
  let p := Sample.process_with true [(Sample.app_class_loader, 11)] in
  let run := Create (libs := Sample.libs)
                    28 Sample.app_class_loader false
                    (Some "/data/app/A/base.apk") (Some "/data/app/A/lib")
                    None p in
  find_namespace (namespaces_ (this p)) Sample.app_class_loader = Some 11 /\
  run = (Abort kAlreadyAssociated, p).
Proof.
  intros p run. split; [reflexivity|].
  apply (Create_duplicate
           (linker := Sample.linker true) (libs := Sample.libs)
           28 Sample.app_class_loader false
           (Some "/data/app/A/base.apk") (Some "/data/app/A/lib")
           None p 11).
  reflexivity.
Defined.

(** Against C4: a first call without a library path registers the
    class loader and leaves [initialized_] clear; in a second call for the
    same class loader, with a library path, the anonymous namespace fails
    to initialise, and the call returns that error before it reaches the
    duplicate-registration check. *)
Lemma Create_again_returns_boot_error :
  let first := Create (linker := Sample.linker false) (libs := Sample.libs)
                      28 Sample.app_class_loader false
                      (Some "/data/app/A/base.apk") None None
                      fresh_process in
  let second := Create (linker := Sample.linker false) (libs := Sample.libs)
                       28 Sample.app_class_loader false
                       (Some "/data/app/A/base.apk") (Some "/data/app/A/lib")
                       None (snd first) in
  fst first = Ret 10 /\
  find_namespace (namespaces_ (this (snd first))) Sample.app_class_loader =
    Some 10 /\
  fst second = Err "dlerror" /\
  fst second <> Abort kAlreadyAssociated.
Proof.
  vm_compute. repeat split. discriminate.
Qed.




(* ================================================================= *)
(** ** Dex paths as lists of entries *)

Lemma starts_with_append w s : starts_with w (w ++ s) = true.
Proof.
  induction w as [|a w IH]; cbn [append starts_with]; [reflexivity|].
  rewrite Ascii.eqb_refl. exact IH.
Qed.

(** A colon-free word is looked for in the first entry only. *)
Lemma starts_with_first_entry w :
  colon_free w = true ->
  forall s,
    starts_with w s = starts_with w (hd EmptyString (Split s ":")).
Proof.
  induction w as [|a w IH]; intros Hfree s; [reflexivity|].
  cbn [colon_free] in Hfree. apply andb_true_iff in Hfree.
  destruct Hfree as [Ha Hw].
  destruct s as [|c s]; [reflexivity|].
  rewrite Split_cons. destruct (Ascii.eqb_spec c ":") as [-> | Hc].
  - cbn [hd starts_with]. destruct (Ascii.eqb a ":"); [discriminate|].
    reflexivity.
  - cbn [hd starts_with]. rewrite (IH Hw s). reflexivity.
Qed.

Lemma vendor_marker_first_entry s :
  vendor_marker s = vendor_marker (hd EmptyString (Split s ":")).
Proof. apply starts_with_first_entry. reflexivity. Qed.

Lemma product_marker_first_entry s :
  product_marker s = product_marker (hd EmptyString (Split s ":")).
Proof.
  unfold product_marker.
  rewrite <- !starts_with_first_entry by reflexivity. reflexivity.
Qed.

Section Entries.

(** A marker that is looked for in the first entry only. *)
Variable marker : string -> bool.
Hypothesis marker_first_entry :
  forall s, marker s = marker (hd EmptyString (Split s ":")).

Lemma later_entries_marked s :
  existsb marker (tl (Split s ":")) = true <->
  exists before rest, s = before ++ ":" ++ rest /\ marker rest = true.
Proof.
  induction s as [|c s IH].
  - cbn. split; [discriminate|].
    intros (before & rest & E & _). destruct before; discriminate.
  - rewrite Split_cons. destruct (Ascii.eqb_spec c ":") as [-> | Hc];
      cbn [tl].
    + destruct (Split s ":") as [|entry entries] eqn:E;
        [now apply Split_nonempty in E|].
      cbn [existsb]. rewrite orb_true_iff.
      assert (Hfirst : marker entry = marker s).
      { rewrite (marker_first_entry s), E. reflexivity. }
      rewrite Hfirst. cbn [tl] in IH. rewrite IH. split.
      * intros [Hm | (before & rest & -> & Hm)].
        -- exists "", s. auto.
        -- exists (String ":" before), rest. auto.
      * intros (before & rest & E' & Hm).
        destruct before as [|b before]; cbn [append] in E'.
        -- injection E' as <-. auto.
        -- injection E' as _ ->. right. exists before, rest. auto.
    + rewrite IH. split.
      * intros (before & rest & -> & Hm). exists (String c before), rest. auto.
      * intros (before & rest & E' & Hm).
        destruct before as [|b before]; cbn [append] in E'.
        -- injection E' as -> _. congruence.
        -- injection E' as _ ->. exists before, rest. auto.
Qed.

Lemma marked_entries s :
  marked marker s <-> existsb marker (Split s ":") = true.
Proof.
  unfold marked. rewrite <- later_entries_marked.
  rewrite (marker_first_entry s).
  destruct (Split s ":") as [|entry entries] eqn:E;
    [now apply Split_nonempty in E|].
  cbn [hd tl existsb]. rewrite orb_true_iff. reflexivity.
Qed.

End Entries.

Lemma regex_search_vendor_entries s :
  regex_search s kVendorDexPathRegex = existsb vendor_marker (Split s ":").
Proof.
  apply eq_true_iff_eq. rewrite vendor_pattern_spec.
  apply marked_entries. exact vendor_marker_first_entry.
Qed.

Lemma regex_search_product_entries s :
  regex_search s kProductDexPathRegex = existsb product_marker (Split s ":").
Proof.
  apply eq_true_iff_eq. rewrite product_pattern_spec.
  apply marked_entries. exact product_marker_first_entry.
Qed.

(** X1.  The classifier reads a dex path as a list of entries separated by
    ':': the path is vendor if some entry begins with "/vendor/", product
    if some entry begins with "/product/" or "/system/product/", and the
    process aborts if the path has entries of both kinds.  Nothing else of
    the path matters, in particular not where in the list the entry is. *)
Theorem GetApkOriginFromDexPath_by_entries s :
  GetApkOriginFromDexPath (Some s) =
  match existsb (starts_with "/vendor/") (Split s ":"),
        existsb (fun entry => starts_with "/system/product/" entry ||
                              starts_with "/product/" entry)
                (Split s ":") with
  | true, true => Abort (kBothPartitions ++ s)
  | true, false => Ret APK_ORIGIN_VENDOR
  | false, true => Ret APK_ORIGIN_PRODUCT
  | false, false => Ret APK_ORIGIN_DEFAULT
  end.
Proof.
  rewrite GetApkOriginFromDexPath_table, regex_search_vendor_entries,
    regex_search_product_entries.
  reflexivity.
Qed.

(** X2.  Joining two dex paths with ':' joins their classifications: a
    path that classifies as Default changes nothing on either side, two
    paths of the same origin keep it, and a vendor path joined with a
    product path, in either order, aborts the process. *)
Theorem GetApkOriginFromDexPath_join a b :
  (forall origin,
      GetApkOriginFromDexPath (Some a) = Ret APK_ORIGIN_DEFAULT ->
      GetApkOriginFromDexPath (Some b) = Ret origin ->
      GetApkOriginFromDexPath (Some (a ++ ":" ++ b)) = Ret origin /\
      GetApkOriginFromDexPath (Some (b ++ ":" ++ a)) = Ret origin) /\
  (forall origin,
      GetApkOriginFromDexPath (Some a) = Ret origin ->
      GetApkOriginFromDexPath (Some b) = Ret origin ->
      GetApkOriginFromDexPath (Some (a ++ ":" ++ b)) = Ret origin) /\
  (GetApkOriginFromDexPath (Some a) = Ret APK_ORIGIN_VENDOR ->
   GetApkOriginFromDexPath (Some b) = Ret APK_ORIGIN_PRODUCT ->
   GetApkOriginFromDexPath (Some (a ++ ":" ++ b)) =
     Abort (kBothPartitions ++ a ++ ":" ++ b) /\
   GetApkOriginFromDexPath (Some (b ++ ":" ++ a)) =
     Abort (kBothPartitions ++ b ++ ":" ++ a)).
Proof.
  rewrite !GetApkOriginFromDexPath_table.
  rewrite !regex_search_vendor_entries, !regex_search_product_entries.
  cbn [append]. rewrite !Split_join, !existsb_app.
  destruct (existsb vendor_marker (Split a ":")),
           (existsb product_marker (Split a ":")),
           (existsb vendor_marker (Split b ":")),
           (existsb product_marker (Split b ":"));
    cbn [orb]; repeat split; intros; try discriminate; try congruence;
    try (destruct origin; discriminate).
Qed.

(* ================================================================= *)
(** ** More on the bootstrap *)

Section FurtherBootstrap.

Context {linker : Linker} {libs : PublicLibraries}.

(** X3.  [InitPublicNamespace] first initialises the anonymous namespace of
    the linker, and then the one of the bridge exactly if that succeeded
    and [NativeBridgeInitialized] holds at that point.  The library path
    goes to exactly one of the two: to the bridge if the bridge supports
    the path, to the linker if not; the other gets null.  [initialized_]
    ends as the answer of the last attempt, the call succeeds exactly if
    it ends set, and a failure reports [dlerror] for the linker and
    [NativeBridgeGetError] for the bridge.  The registry is not touched. *)
Theorem InitPublicNamespace_attempts library_path p :
  let run := InitPublicNamespace library_path p in
  let supported := NativeBridgeIsPathSupported (calls p) library_path in
  let anon_path := if supported then None else Some library_path in
  let bridge_path := if supported then Some library_path else None in
  exists new native_ok,
    calls (snd run) = (calls p ++ new)%list /\
    namespaces_ (this (snd run)) = namespaces_ (this p) /\
    scope_requests new = [] /\ link_attempts new = [] /\
    ((boot_attempts new = [(false, anon_path, native_ok)] /\
      initialized_ (this (snd run)) = native_ok /\
      native_ok && NativeBridgeInitialized (calls (snd run)) = false) \/
     (exists bridge_ok,
         native_ok = true /\
         NativeBridgeInitialized
           (calls p ++
            [EvInitAnonymous default_public_libraries anon_path true])%list
         = true /\
         boot_attempts new =
           [(false, anon_path, true); (true, bridge_path, bridge_ok)] /\
         initialized_ (this (snd run)) = bridge_ok)) /\
    fst run =
      if initialized_ (this (snd run)) then Ret tt
      else Err (if native_ok then NativeBridgeGetError (calls (snd run))
                else dlerror (calls (snd run))).
Proof.
  intros run supported anon_path bridge_path. subst run.
  unfold InitPublicNamespace, bind, ask, call, fail, ret, set_initialized,
    record.
  cbn [fst snd this calls initialized_ namespaces_].
  fold supported. fold anon_path. fold bridge_path.
  destruct (android_init_anonymous_namespace
              (calls p) default_public_libraries anon_path) eqn:Hanon;
    cbn [negb fst snd this calls initialized_ namespaces_].
  - destruct (NativeBridgeInitialized _) eqn:Hb;
      cbn [fst snd this calls initialized_ namespaces_].
    + destruct (NativeBridgeInitAnonymousNamespace _ _ _) eqn:Hbridge;
        cbn [negb fst snd this calls initialized_ namespaces_];
        rewrite <- app_assoc; cbn [app]; eexists; exists true;
        (split; [reflexivity|]); (split; [reflexivity|]);
        (split; [reflexivity|]); (split; [reflexivity|]);
        (split; [|reflexivity]); right; eexists; repeat split; exact Hb.
    + eexists. exists true. split; [reflexivity|].
      repeat split; try reflexivity. left. repeat split. exact Hb.
  - eexists. exists false. split; [reflexivity|].
    repeat split; try reflexivity. left. repeat split.
Qed.

Lemma preload_calls sonames : forall p,
  exists loaded,
    match fst (preload sonames p) with
    | Ret _ =>
        loaded = sonames /\
        calls (snd (preload sonames p)) =
          (calls p ++ map (fun soname => EvDlopen soname true) loaded)%list
    | Err _ => False
    | Abort message =>
        exists soname later,
          sonames = (loaded ++ soname :: later)%list /\
          calls (snd (preload sonames p)) =
            (calls p ++ map (fun soname => EvDlopen soname true) loaded ++
             [EvDlopen soname false])%list /\
          message = kPreloadError ++ soname ++ ": " ++
                    dlerror (calls (snd (preload sonames p)))
    end.
Proof.
  induction sonames as [|soname rest IH]; intros p.
  - exists []. cbn. rewrite app_nil_r. auto.
  - rewrite preload_cons.
    destruct (dlopen (calls p) soname) eqn:Hload.
    + destruct (IH (record (EvDlopen soname true) p)) as (loaded & Hr).
      exists (soname :: loaded).
      destruct (fst (preload rest (record (EvDlopen soname true) p)))
        as [u | e | message].
      * destruct Hr as [-> Hc]. split; [reflexivity|].
        rewrite Hc. cbn [record calls map]. rewrite <- app_assoc.
        reflexivity.
      * exact Hr.
      * destruct Hr as (failing & later & -> & Hc & Hm).
        exists failing, later. split; [reflexivity|]. split; [|exact Hm].
        rewrite Hc. cbn [record calls map]. rewrite <- !app_assoc.
        reflexivity.
    + exists []. cbn [fst snd]. exists soname, rest.
      repeat split; reflexivity.
Qed.

(** X4.  While [initialized_] is clear, [Initialize] calls [dlopen] on the
    default public libraries in the order of the list and nothing else.
    It never returns an error: either every library loads, or the process
    aborts at the first one that does not, with a message that names it,
    and the libraries after it are not tried. *)
Theorem Initialize_stops_at_first_failure p :
  initialized_ (this p) = false ->
  let run := Initialize p in
  let sonames := Split default_public_libraries ":" in
  match fst run with
  | Ret _ =>
      calls (snd run) =
        (calls p ++ map (fun soname => EvDlopen soname true) sonames)%list
  | Err _ => False
  | Abort message =>
      exists loaded soname later,
        sonames = (loaded ++ soname :: later)%list /\
        calls (snd run) =
          (calls p ++ map (fun soname => EvDlopen soname true) loaded ++
           [EvDlopen soname false])%list /\
        message = kPreloadError ++ soname ++ ": " ++
                  dlerror (calls (snd run))
  end.
Proof.
  intros Hclear run sonames. subst run.
  unfold Initialize, bind, get_initialized. rewrite Hclear. cbn iota beta.
  fold sonames.
  destruct (preload_calls sonames p) as (loaded & Hr).
  destruct (fst (preload sonames p)) as [u | e | message].
  - destruct Hr as [-> Hc]. exact Hc.
  - exact Hr.
  - exists loaded. exact Hr.
Qed.

End FurtherBootstrap.

(* ================================================================= *)
(** ** More on the runs of Create *)

Lemma append_nil_r_string (a : string) : a ++ "" = a.
Proof.
  induction a as [|x a IH]; cbn [append]; [reflexivity|].
  rewrite IH. reflexivity.
Qed.

Section FurtherRuns.

Context {linker : Linker} {libs : PublicLibraries}.

Lemma is_link_calls (links : list (Event NativeLoaderNamespace)) :
  forallb is_link links = true ->
  boot_attempts links = [] /\ scope_settings links = [] /\
  preloads links = [] /\ scope_requests links = [] /\
  scopes_created links = [].
Proof.
  induction links as [|e links IH]; [auto|].
  cbn [forallb]. intros H. apply andb_true_iff in H. destruct H as [He Hl].
  destruct e; try discriminate; cbn; auto.
Qed.

Lemma is_boot_calls (boot : list (Event NativeLoaderNamespace)) :
  forallb is_boot boot = true ->
  scope_settings boot = [] /\ preloads boot = [].
Proof.
  induction boot as [|e boot IH]; [auto|].
  cbn [forallb]. intros H. apply andb_true_iff in H. destruct H as [He Hb].
  destruct e; try discriminate; cbn; auto.
Qed.

Lemma boot_attempts_app (h1 h2 : list (Event NativeLoaderNamespace)) :
  boot_attempts (h1 ++ h2) = (boot_attempts h1 ++ boot_attempts h2)%list.
Proof.
  induction h1 as [|e h1 IH]; [reflexivity|].
  destruct e; cbn [app boot_attempts]; rewrite IH; reflexivity.
Qed.

Lemma scope_settings_app (h1 h2 : list (Event NativeLoaderNamespace)) :
  scope_settings (h1 ++ h2) = (scope_settings h1 ++ scope_settings h2)%list.
Proof.
  induction h1 as [|e h1 IH]; [reflexivity|].
  destruct e; cbn [app scope_settings]; rewrite IH; reflexivity.
Qed.

Lemma preloads_append (h1 h2 : list (Event NativeLoaderNamespace)) :
  preloads (h1 ++ h2) = (preloads h1 ++ preloads h2)%list.
Proof.
  induction h1 as [|e h1 IH]; [reflexivity|].
  destruct e; cbn [app preloads]; rewrite IH; reflexivity.
Qed.

Lemma linked_ok_is_link app_ns steps :
  forallb is_link (map (linked_ok app_ns) steps) = true.
Proof. induction steps as [|step steps IH]; [reflexivity | exact IH]. Qed.

Lemma Scope_run_links class_loader policy app_ns p2 r p' :
  Scope_run class_loader policy app_ns p2 r p' ->
  exists links,
    calls p' = (calls p2 ++ links)%list /\
    forallb is_link links = true /\
    initialized_ (this p') = initialized_ (this p2).
Proof.
  intros [Hnil | done target shared_libs later e p3 Hnil Hplan Hthis Hcalls
               | p3 Hnil Hthis Hcalls].
  - exists []. rewrite app_nil_r. auto.
  - eexists. split; [exact Hcalls|]. split; [|rewrite Hthis; reflexivity].
    rewrite forallb_app, linked_ok_is_link. reflexivity.
  - eexists. split; [exact Hcalls|].
    split; [apply linked_ok_is_link|].
    cbn [registered this initialized_]. rewrite Hthis. reflexivity.
Qed.

(** The calls of a run of [Create], in order: those of the bootstrap, then
    the creation of the scope and the links. *)
Lemma Create_shape target_sdk_version class_loader is_shared
      dex_path java_library_path java_permitted_path p :
  let run := Create target_sdk_version class_loader is_shared dex_path
                    java_library_path java_permitted_path p in
  let library_path0 := declared_library_path java_library_path in
  let init := InitPublicNamespace library_path0 p in
  exists boot tail,
    calls (snd run) = (calls p ++ boot ++ tail)%list /\
    forallb is_boot boot = true /\
    (boots java_library_path p = false -> boot = []) /\
    initialized_ (this (snd run)) =
      (if boots java_library_path p &&
          returned (GetApkOriginFromDexPath dex_path)
       then initialized_ (this (snd init))
       else initialized_ (this p)) /\
    (returned (fst run) = true ->
     boots java_library_path p = true -> fst init = Ret tt) /\
    (boots java_library_path p = true ->
     returned (GetApkOriginFromDexPath dex_path) = true ->
     calls (snd init) = (calls p ++ boot)%list) /\
    (tail = [] /\ returned (fst run) = false \/
     exists apk_origin app_ns links,
       GetApkOriginFromDexPath dex_path = Ret apk_origin /\
       let policy :=
         effective_policy apk_origin target_sdk_version is_shared
                          library_path0
                          (resolve_permitted_path java_permitted_path) in
       tail =
         EvCreate (namespace_name policy) (library_path policy)
                  (permitted_path policy)
                  (nearest_registered (namespaces_ (this p))
                                      (ancestors class_loader))
                  is_shared (target_sdk_version <? 24)%N app_ns :: links /\
       forallb is_link links = true).
Proof.
  intros run library_path0 init.
  pose proof (Create_sound target_sdk_version class_loader is_shared dex_path
                           java_library_path java_permitted_path p) as Hrun.
  unfold wp in Hrun. fold run in Hrun.
  pose proof (InitPublicNamespace_boot library_path0 p) as Hinit.
  unfold wp in Hinit. fold init in Hinit.
  assert (Hbooted : forall p1,
             booted java_library_path p p1 ->
             exists boot,
               calls p1 = (calls p ++ boot)%list /\
               forallb is_boot boot = true /\
               (boots java_library_path p = false -> boot = []) /\
               namespaces_ (this p1) = namespaces_ (this p) /\
               initialized_ (this p1) =
                 (if boots java_library_path p
                  then initialized_ (this (snd init))
                  else initialized_ (this p)) /\
               (boots java_library_path p = true -> fst init = Ret tt) /\
               (boots java_library_path p = true ->
                calls (snd init) = (calls p ++ boot)%list)).
  { intros p1 [Hskip | p1' Hb Hi].
    - exists []. rewrite app_nil_r, Hskip.
      repeat split; auto; discriminate.
    - fold library_path0 in Hi. fold init in Hi. rewrite Hi in Hinit.
      cbn [fst snd] in Hinit.
      destruct Hinit as (boot & Hc & Hn & Hboot & _).
      exists boot. rewrite Hb, Hi. cbn [fst snd].
      repeat split; auto. discriminate. }
  destruct Hrun as [message Hamb
                   | apk_origin e p1 Horigin Hboots Hi
                   | apk_origin p1 ns Horigin Hb Hfound
                   | apk_origin p1 app_ns r p' Horigin Hb Hfound
                       policy parent_ns is_greylist_enabled Happ Hscope].
  - exists [], []. rewrite Hamb, andb_false_r, app_nil_r.
    repeat split; auto; discriminate.
  - fold library_path0 in Hi. fold init in Hi. rewrite Hi in Hinit.
    cbn [fst snd] in Hinit.
    destruct Hinit as (boot & Hc & Hn & Hboot & _).
    exists boot, []. rewrite Horigin, Hboots, Hi, app_nil_r. cbn [fst snd].
    repeat split; auto; discriminate.
  - destruct (Hbooted p1 Hb)
      as (boot & Hc & Hboot & Hskip & Hn & Hflag & Hok & Hic).
    exists boot, []. rewrite Horigin, app_nil_r, andb_true_r.
    repeat split; auto; discriminate.
  - destruct (Hbooted p1 Hb)
      as (boot & Hc & Hboot & Hskip & Hn & Hflag & Hok & Hic).
    destruct (Scope_run_links _ _ _ _ _ _ Hscope) as (links & Hc' & Hl & Hf).
    eexists boot, (_ :: links).
    rewrite Horigin, andb_true_r, Hf. cbn [record this].
    split.
    { rewrite Hc'. cbn [record calls]. rewrite Hc, <- !app_assoc.
      reflexivity. }
    split; [exact Hboot|]. split; [exact Hskip|]. split; [exact Hflag|].
    split; [intros _; exact Hok|]. split; [intros H _; exact (Hic H)|].
    right. exists apk_origin, app_ns, links. split; [reflexivity|].
    cbn zeta. subst parent_ns. rewrite Hn. split; [reflexivity | exact Hl].
Qed.

(** The flag after a call that returned a handle for a non-empty library
    path. *)
Lemma Create_sets_flag target_sdk_version class_loader is_shared
      dex_path java_library_path java_permitted_path p app_ns :
  let run := Create target_sdk_version class_loader is_shared dex_path
                    java_library_path java_permitted_path p in
  fst run = Ret app_ns ->
  empty (declared_library_path java_library_path) = false ->
  initialized_ (this (snd run)) = true.
Proof.
  intros run Hret Hpath.
  destruct (Create_shape target_sdk_version class_loader is_shared dex_path
                         java_library_path java_permitted_path p)
    as (boot & tail & _ & _ & _ & Hflag & Hok & _ & _).
  fold run in Hflag, Hok. rewrite Hflag. rewrite Hret in Hok.
  unfold boots in *. rewrite Hpath in *. cbn [negb andb] in *.
  destruct (initialized_ (this p)) eqn:Hset; cbn [negb andb] in *;
    [reflexivity|].
  specialize (Hok eq_refl eq_refl).
  destruct (GetApkOriginFromDexPath dex_path) eqn:Ho; cbn [returned].
  - pose proof (InitPublicNamespace_boot
                  (declared_library_path java_library_path) p) as Hinit.
    unfold wp in Hinit. rewrite Hok in Hinit.
    destruct Hinit as (b & _ & _ & _ & Hi & _). exact Hi.
  - now apply GetApkOriginFromDexPath_no_error in Ho.
  - destruct (Create_facts target_sdk_version class_loader is_shared
                           dex_path java_library_path java_permitted_path p)
      as (new & _ & _ & Hr).
    fold run in Hr. rewrite Hret in Hr.
    destruct Hr as (o & Ho' & _). congruence.
Qed.

(** X5.  [Create] initialises the anonymous namespace only for a non-empty
    library path and only while [initialized_] is clear: with a null or
    empty library path, or with the flag set, it makes no such attempt and
    leaves the flag as it is.  A call that returns a handle for a non-empty
    library path leaves the flag set. *)
Theorem Create_bootstraps_lazily target_sdk_version class_loader is_shared
        dex_path java_library_path java_permitted_path p :
  let run := Create target_sdk_version class_loader is_shared dex_path
                    java_library_path java_permitted_path p in
  let library_path0 := declared_library_path java_library_path in
  exists new,
    calls (snd run) = (calls p ++ new)%list /\
    (empty library_path0 = true \/ initialized_ (this p) = true ->
     boot_attempts new = [] /\
     initialized_ (this (snd run)) = initialized_ (this p)) /\
    (boot_attempts new <> [] ->
     empty library_path0 = false /\ initialized_ (this p) = false) /\
    (forall app_ns,
        fst run = Ret app_ns ->
        empty library_path0 = false ->
        initialized_ (this (snd run)) = true).
Proof.
  intros run library_path0.
  destruct (Create_shape target_sdk_version class_loader is_shared dex_path
                         java_library_path java_permitted_path p)
    as (boot & tail & Hcalls & Hboot & Hskip & Hflag & _ & _ & Htail).
  fold run in Hcalls, Hflag.
  assert (Hattempts : boot_attempts (boot ++ tail) = boot_attempts boot).
  { rewrite boot_attempts_app.
    destruct Htail as [[-> _] | (o & h & links & _ & -> & Hl)];
      [apply app_nil_r|].
    cbn [boot_attempts]. destruct (is_link_calls _ Hl) as (-> & _).
    apply app_nil_r. }
  assert (Hnone : empty library_path0 = true \/ initialized_ (this p) = true ->
                  boots java_library_path p = false).
  { unfold boots. fold library_path0.
    intros [-> | ->]; [reflexivity | apply andb_false_r]. }
  exists (boot ++ tail)%list. split; [exact Hcalls|]. split; [|split].
  - intros H. apply Hnone in H. rewrite Hattempts, Hflag, (Hskip H), H.
    auto.
  - intros H. rewrite Hattempts in H.
    destruct (empty library_path0) eqn:He.
    + rewrite (Hskip (Hnone (or_introl eq_refl))) in H. now elim H.
    + destruct (initialized_ (this p)) eqn:Hi; [|auto].
      rewrite (Hskip (Hnone (or_intror eq_refl))) in H. now elim H.
  - intros app_ns Hret Hpath.
    exact (Create_sets_flag target_sdk_version class_loader is_shared
             dex_path java_library_path java_permitted_path p app_ns
             Hret Hpath).
Qed.

(** X6.  After a call of [Create] that returned a handle for a non-empty
    library path, [Initialize] does nothing: no library is preloaded and
    the process stays as it is. *)
Theorem Initialize_after_Create target_sdk_version class_loader is_shared
        dex_path java_library_path java_permitted_path p app_ns :
  let run := Create target_sdk_version class_loader is_shared dex_path
                    java_library_path java_permitted_path p in
  fst run = Ret app_ns ->
  empty (declared_library_path java_library_path) = false ->
  Initialize (snd run) = (Ret tt, snd run).
Proof.
  intros run Hret Hpath. apply Initialize_initialized.
  exact (Create_sets_flag target_sdk_version class_loader is_shared
           dex_path java_library_path java_permitted_path p app_ns
           Hret Hpath).
Qed.

Lemma effective_policy_paths apk_origin target_sdk_version is_shared
      library_path0 permitted_path0 :
  let policy := effective_policy apk_origin target_sdk_version is_shared
                                 library_path0 permitted_path0 in
  starts_with library_path0 (library_path policy) = true /\
  starts_with permitted_path0 (permitted_path policy) = true /\
  (namespace_name policy = kClassloaderNamespaceName \/
   namespace_name policy = kVendorClassloaderNamespaceName).
Proof.
  unfold effective_policy.
  destruct ((ApkOrigin_eqb apk_origin APK_ORIGIN_VENDOR ||
             ApkOrigin_eqb apk_origin APK_ORIGIN_PRODUCT &&
             (29 <? target_sdk_version)%N) && negb is_shared);
    cbn [library_path permitted_path namespace_name].
  - rewrite !starts_with_append. auto.
  - rewrite <- (append_nil_r_string library_path0) at 2.
    rewrite <- (append_nil_r_string permitted_path0) at 2.
    rewrite !starts_with_append. auto.
Qed.

Lemma resolve_permitted_path_whitelist java_permitted_path :
  starts_with kWhitelistedDirectories
              (resolve_permitted_path java_permitted_path) = true.
Proof.
  unfold resolve_permitted_path.
  destruct java_permitted_path as [path|]; [|reflexivity].
  destruct (0 <? String.length path)%nat; [|reflexivity].
  apply starts_with_append.
Qed.

Lemma starts_with_trans a b c :
  starts_with a b = true -> starts_with b c = true -> starts_with a c = true.
Proof.
  revert b c. induction a as [|x a IH]; intros b c Hab Hbc; [reflexivity|].
  destruct b as [|y b]; [discriminate|].
  destruct c as [|z c]; [discriminate|].
  cbn [starts_with] in *.
  apply andb_true_iff in Hab. destruct Hab as [Hxy Hab].
  apply andb_true_iff in Hbc. destruct Hbc as [Hyz Hbc].
  apply Ascii.eqb_eq in Hxy. subst y. rewrite Hyz. cbn [andb].
  exact (IH b c Hab Hbc).
Qed.

(** X7.  [Create] only ever appends to the paths it is given.  Whatever
    the origin, the sharing and the target SDK version, the scope is asked
    for with a search path that begins with the declared library path, a
    permitted path that begins with "/data:/mnt/expand", and one of the two
    namespace names. *)
Theorem Create_keeps_declared_paths target_sdk_version class_loader is_shared
        dex_path java_library_path java_permitted_path p :
  let run := Create target_sdk_version class_loader is_shared dex_path
                    java_library_path java_permitted_path p in
  exists new,
    calls (snd run) = (calls p ++ new)%list /\
    forall name search_paths permitted_paths,
      In (name, search_paths, permitted_paths) (scope_requests new) ->
      starts_with (declared_library_path java_library_path) search_paths
        = true /\
      starts_with "/data:/mnt/expand" permitted_paths = true /\
      (name = "classloader-namespace" \/
       name = "vendor-classloader-namespace").
Proof.
  intros run.
  destruct (GetApkOriginFromDexPath dex_path) as [o | e | m] eqn:Ho.
  - destruct (Create_policy_calls target_sdk_version class_loader is_shared
                dex_path java_library_path java_permitted_path p o Ho)
      as (new & Hcalls & Hreq & _).
    exists new. split; [exact Hcalls|].
    intros name search_paths permitted_paths Hin.
    destruct Hreq as [Hreq | Hreq]; rewrite Hreq in Hin; [destruct Hin|].
    destruct Hin as [Hin | []]. unfold request in Hin.
    injection Hin as <- <- <-.
    destruct (effective_policy_paths
                o target_sdk_version is_shared
                (declared_library_path java_library_path)
                (resolve_permitted_path java_permitted_path))
      as (Hl & Hp & Hn).
    split; [exact Hl|]. split; [|exact Hn].
    exact (starts_with_trans _ _ _
             (resolve_permitted_path_whitelist java_permitted_path) Hp).
  - now apply GetApkOriginFromDexPath_no_error in Ho.
  - destruct (Create_facts target_sdk_version class_loader is_shared
                           dex_path java_library_path java_permitted_path p)
      as (new & Hcalls & _ & Hr).
    fold run in Hcalls, Hr. exists new. split; [exact Hcalls|].
    destruct (fst run) as [h | e | message].
    + destruct Hr as (o & Ho' & _). congruence.
    + destruct Hr as (_ & _ & o & Ho' & _). congruence.
    + destruct Hr as (_ & _ & Hreq & _). rewrite Hreq. intros ? ? ? [].
Qed.

(** X8.  A call of [Create] for a class loader that is not shared, whose
    dex path classifies as product and whose target SDK version is above
    29, computes the policy of an unbundled product app: both product
    library directories, "/product/LIB:/system/product/LIB", are appended
    to the library path and to the permitted path, the platform-exposed
    set is the default public set joined with the LLNDK set, and the
    namespace gets the same name as for a vendor app,
    "vendor-classloader-namespace".  The call uses these values: unless
    it is stopped before line 213 it asks the linker for one scope with
    that name and those paths, and unless the linker answers with a nil
    handle its first link is the platform link exposing that set. *)
Theorem Create_unbundled_product_policy target_sdk_version class_loader
        dex_path java_library_path java_permitted_path p :
  GetApkOriginFromDexPath dex_path = Ret APK_ORIGIN_PRODUCT ->
  (29 < target_sdk_version)%N ->
  let run := Create target_sdk_version class_loader false dex_path
                    java_library_path java_permitted_path p in
  let library_path0 := declared_library_path java_library_path in
  let permitted_path0 := resolve_permitted_path java_permitted_path in
  let product_lib_path :=
    "/product/" ++ LIB ++ ":/system/product/" ++ LIB in
  let exposed := default_public_libraries ++ ":" ++ llndk_libraries in
  effective_policy APK_ORIGIN_PRODUCT target_sdk_version false
                   library_path0 permitted_path0 =
  {| library_path := library_path0 ++ ":" ++ product_lib_path;
     permitted_path := permitted_path0 ++ ":" ++ product_lib_path;
     system_exposed_libraries := exposed;
     namespace_name := "vendor-classloader-namespace";
     unbundled_vendor_or_product_app := true |} /\
  exists new,
    calls (snd run) = (calls p ++ new)%list /\
    (scope_requests new = [] \/
     scope_requests new =
       [("vendor-classloader-namespace",
         library_path0 ++ ":" ++ product_lib_path,
         permitted_path0 ++ ":" ++ product_lib_path)]) /\
    (link_attempts new = [] \/
     exists app_ns ok more,
       scopes_created new = [app_ns] /\
       link_attempts new =
         (GetPlatformNamespace (IsBridged app_ns), exposed, ok) :: more) /\
    (forall app_ns,
        fst run = Ret app_ns ->
        scope_requests new <> [] /\ link_attempts new <> []) /\
    (find_namespace (namespaces_ (this p)) class_loader = None ->
     boots java_library_path p = false \/
     fst (InitPublicNamespace library_path0 p) = Ret tt ->
     scope_requests new =
       [("vendor-classloader-namespace",
         library_path0 ++ ":" ++ product_lib_path,
         permitted_path0 ++ ":" ++ product_lib_path)] /\
     exists app_ns,
       scopes_created new = [app_ns] /\
       if IsNil app_ns then link_attempts new = []
       else exists ok more,
           link_attempts new =
           (GetPlatformNamespace (IsBridged app_ns), exposed, ok) :: more).
Proof.
  intros Hproduct Hsdk run library_path0 permitted_path0 product_lib_path
         exposed.
  assert (Hpolicy :
            effective_policy APK_ORIGIN_PRODUCT target_sdk_version false
                             library_path0 permitted_path0 =
            unbundled_app_policy library_path0 permitted_path0
                                 kProductLibPath).
  { unfold effective_policy. cbn [ApkOrigin_eqb orb andb negb].
    destruct (N.ltb_spec 29 target_sdk_version) as [_ | Hle]; [|lia].
    reflexivity. }
  split; [exact Hpolicy|].
  destruct (Create_policy_run target_sdk_version class_loader false dex_path
              java_library_path java_permitted_path p _ Hproduct)
    as (new & Hcalls & Hreq & Hlinks & Hret & Hreach).
  fold library_path0 permitted_path0 in Hreq, Hlinks, Hret, Hreach.
  rewrite Hpolicy in Hreq, Hlinks, Hret, Hreach.
  exists new. split; [exact Hcalls|]. split; [exact Hreq|].
  split; [exact Hlinks|]. split; [|exact Hreach].
  intros app_ns Hrun. destruct (Hret app_ns Hrun) as (Hr & more & Hl).
  rewrite Hr, Hl. split; discriminate.
Qed.


(** X10.  The scope of a call of [Create] is asked for with the parent
    that [FindParentNamespaceByClassLoader] finds in the registry as it was
    when the call began, with [is_shared] as given, and with the greylist
    enabled exactly if the target SDK version is below 24.  A call that
    returns a handle has asked for its scope. *)
Theorem Create_scope_settings target_sdk_version class_loader is_shared
        dex_path java_library_path java_permitted_path p :
  let run := Create target_sdk_version class_loader is_shared dex_path
                    java_library_path java_permitted_path p in
  exists new parent_ns,
    calls (snd run) = (calls p ++ new)%list /\
    fst (FindParentNamespaceByClassLoader class_loader p) = Ret parent_ns /\
    (scope_settings new = [] \/
     scope_settings new =
       [(parent_ns, is_shared, (target_sdk_version <? 24)%N)]) /\
    (forall app_ns, fst run = Ret app_ns -> scope_settings new <> []).
Proof.
  intros run.
  destruct (Create_shape target_sdk_version class_loader is_shared dex_path
                         java_library_path java_permitted_path p)
    as (boot & tail & Hcalls & Hboot & _ & _ & _ & _ & Htail).
  fold run in Hcalls, Htail.
  exists (boot ++ tail)%list. eexists. split; [exact Hcalls|].
  rewrite FindParentNamespaceByClassLoader_run. split; [reflexivity|].
  rewrite scope_settings_app.
  destruct (is_boot_calls _ Hboot) as (-> & _). cbn [app].
  destruct Htail as [[-> Hno] | (o & h & links & _ & -> & Hl)].
  - split; [left; reflexivity|]. intros app_ns Hret.
    rewrite Hret in Hno. discriminate.
  - cbn [scope_settings]. destruct (is_link_calls _ Hl) as (_ & -> & _).
    split; [right; reflexivity|]. intros _ _. discriminate.
Qed.

Lemma reachable_from_keeps_entries p0 q :
  reachable_from p0 q ->
  forall class_loader ns,
    find_namespace (namespaces_ (this p0)) class_loader = Some ns ->
    find_namespace (namespaces_ (this q)) class_loader = Some ns.
Proof.
  induction 1 as [| q Hreach IH | q a Hreach IH];
    intros class_loader ns Hfound.
  - exact Hfound.
  - rewrite Initialize_this. exact (IH _ _ Hfound).
  - unfold Create_with.
    destruct (Create_facts (arg_target_sdk_version a) (arg_class_loader a)
                           (arg_is_shared a) (arg_dex_path a)
                           (arg_java_library_path a)
                           (arg_java_permitted_path a) q)
      as (new & _ & _ & Hr).
    destruct (fst (Create (arg_target_sdk_version a) (arg_class_loader a)
                          (arg_is_shared a) (arg_dex_path a)
                          (arg_java_library_path a)
                          (arg_java_permitted_path a) q))
      as [app_ns | e | message].
    + destruct Hr as (_ & _ & _ & Hns & _).
      rewrite Hns, find_namespace_app, (IH _ _ Hfound). reflexivity.
    + destruct Hr as (Hns & _). rewrite Hns. exact (IH _ _ Hfound).
    + destruct Hr as (Hns & _). rewrite Hns. exact (IH _ _ Hfound).
Qed.

(** X11.  Namespaces follow the class loader hierarchy: when [Create] has
    returned a handle for a class loader, then after any further calls of
    [Initialize] and [Create], in any number and order and with any
    arguments, the scope of a call of [Create] for a child of that class
    loader is asked for with that handle as its parent. *)
Theorem Create_child_of_created
        target_sdk_version class_loader is_shared
        dex_path java_library_path java_permitted_path p parent_ns q
        child_id child_sdk_version child_is_shared
        child_dex_path child_library_path child_permitted_path :
  let first := Create target_sdk_version class_loader is_shared dex_path
                      java_library_path java_permitted_path p in
  fst first = Ret parent_ns ->
  reachable_from (snd first) q ->
  let child := ClassLoader child_id (Some class_loader) in
  let second := Create child_sdk_version child child_is_shared
                       child_dex_path child_library_path
                       child_permitted_path q in
  exists new,
    calls (snd second) = (calls q ++ new)%list /\
    (scope_settings new = [] \/
     scope_settings new =
       [(Some parent_ns, child_is_shared, (child_sdk_version <? 24)%N)]) /\
    (forall app_ns, fst second = Ret app_ns -> scope_settings new <> []).
Proof.
  intros first Hret Hreach child second.
  destruct (Create_facts target_sdk_version class_loader is_shared dex_path
                         java_library_path java_permitted_path p)
    as (new1 & _ & _ & Hr).
  fold first in Hr. rewrite Hret in Hr.
  destruct Hr as (_ & _ & Hnone & Hns & _).
  assert (Hfirst :
            find_namespace (namespaces_ (this (snd first))) class_loader =
            Some parent_ns).
  { rewrite Hns, find_namespace_app, Hnone, find_namespace_single,
      IsSameObject_refl.
    reflexivity. }
  assert (Hparent :
            nearest_registered (namespaces_ (this q)) (ancestors child) =
            Some parent_ns).
  { unfold child, ancestors. cbn [GetParentClassLoader].
    pose proof (reachable_from_keeps_entries _ _ Hreach _ _ Hfirst) as Hq.
    destruct class_loader as [id parent].
    cbn [ancestors_from nearest_registered]. rewrite Hq. reflexivity. }
  destruct (Create_shape child_sdk_version child child_is_shared
                         child_dex_path child_library_path
                         child_permitted_path q)
    as (boot & tail & Hcalls & Hboot & _ & _ & _ & _ & Htail).
  fold second in Hcalls, Htail.
  exists (boot ++ tail)%list. split; [exact Hcalls|].
  rewrite scope_settings_app.
  destruct (is_boot_calls _ Hboot) as (-> & _). cbn [app].
  destruct Htail as [[-> Hno] | (o & h & links & _ & -> & Hl)].
  - split; [left; reflexivity|]. intros app_ns Hret2.
    rewrite Hret2 in Hno. discriminate.
  - cbn [scope_settings]. destruct (is_link_calls _ Hl) as (_ & -> & _).
    rewrite Hparent. split; [right; reflexivity|]. intros _ _. discriminate.
Qed.

(** X12.  The links of a call of [Create] that returns a handle, in order:
    the platform namespace with the policy's exposed set; the "runtime"
    namespace with the runtime public libraries, unless that namespace is
    nil; the "vndk" namespace with the VNDK-SP libraries, only for an
    unbundled vendor or product app, a non-empty VNDK-SP list and a "vndk"
    namespace that is not nil; the "sphal" namespace with the vendor public
    libraries, unless that list is empty.  All targets are fetched for the
    bridged state of the new scope, and each link succeeded. *)
Theorem Create_links_in_order target_sdk_version class_loader is_shared
        dex_path java_library_path java_permitted_path p apk_origin app_ns :
  let run := Create target_sdk_version class_loader is_shared dex_path
                    java_library_path java_permitted_path p in
  GetApkOriginFromDexPath dex_path = Ret apk_origin ->
  fst run = Ret app_ns ->
  let policy :=
    effective_policy apk_origin target_sdk_version is_shared
                     (declared_library_path java_library_path)
                     (resolve_permitted_path java_permitted_path) in
  let is_bridged := IsBridged app_ns in
  let runtime_ns := GetExportedNamespace "runtime" is_bridged in
  let vndk_ns := GetExportedNamespace "vndk" is_bridged in
  let vendor_ns := GetExportedNamespace "sphal" is_bridged in
  exists new,
    calls (snd run) = (calls p ++ new)%list /\
    link_attempts new =
      ([(GetPlatformNamespace is_bridged, system_exposed_libraries policy,
         true)] ++
       (if IsNil runtime_ns then []
        else [(runtime_ns, runtime_public_libraries, true)]) ++
       (if unbundled_vendor_or_product_app policy &&
           negb (empty vndksp_libraries) && negb (IsNil vndk_ns)
        then [(vndk_ns, vndksp_libraries, true)] else []) ++
       (if empty vendor_public_libraries then []
        else [(vendor_ns, vendor_public_libraries, true)]))%list.
Proof.
  intros run Horigin Hret policy is_bridged runtime_ns vndk_ns vendor_ns.
  destruct (Create_facts target_sdk_version class_loader is_shared dex_path
                         java_library_path java_permitted_path p)
    as (new & Hcalls & _ & Hr).
  fold run in Hcalls, Hr. rewrite Hret in Hr.
  destruct Hr as (o & Ho & _ & _ & _ & _ & _ & _ & Hlinks).
  assert (o = apk_origin) by congruence. subst o.
  exists new. split; [exact Hcalls|]. rewrite Hlinks.
  fold policy is_bridged.
  unfold link_plan, platform_link, runtime_link, vndk_link, vendor_link,
    kRuntimeNamespaceName, kVndkNamespaceName, kVendorNamespaceName.
  fold runtime_ns vndk_ns vendor_ns.
  destruct (IsNil runtime_ns), (unbundled_vendor_or_product_app policy),
           (empty vndksp_libraries), (IsNil vndk_ns),
           (empty vendor_public_libraries); reflexivity.
Qed.

Lemma attempt_ok_succeeded steps a :
  In a (map attempt_ok steps) -> snd a = true.
Proof.
  induction steps as [|step steps IH]; [intros []|].
  intros [<- | H]; [reflexivity | exact (IH H)].
Qed.

Lemma failed_attempt_last done failing before a after :
  (map attempt_ok done ++ [failing])%list = (before ++ a :: after)%list ->
  snd a = false -> after = [].
Proof.
  revert before. induction done as [|d done IH]; intros before H Ha.
  - destruct before as [|b before]; cbn [map app] in H.
    + congruence.
    + destruct before; discriminate.
  - destruct before as [|b before]; cbn [map app] in H.
    + assert (a = attempt_ok d) by congruence. subst a. discriminate.
    + assert (H' : (map attempt_ok done ++ [failing])%list =
                   (before ++ a :: after)%list) by congruence.
      exact (IH before H' Ha).
Qed.

Lemma scopes_created_length (h : list (Event NativeLoaderNamespace)) :
  length (scopes_created h) = length (scope_requests h).
Proof.
  induction h as [|e h IH]; [reflexivity|].
  destruct e; cbn [scopes_created scope_requests length]; congruence.
Qed.

(** X13.  [Create] stops at the first failure.  A link that fails is the
    last call of the run and the run returns an error; and when the
    linker answers the creation of the scope with a nil handle, no link is
    attempted at all. *)
Theorem Create_stops_at_first_failure target_sdk_version class_loader
        is_shared dex_path java_library_path java_permitted_path p :
  let run := Create target_sdk_version class_loader is_shared dex_path
                    java_library_path java_permitted_path p in
  exists new,
    calls (snd run) = (calls p ++ new)%list /\
    (forall before a after,
        link_attempts new = (before ++ a :: after)%list ->
        snd a = false ->
        after = [] /\ exists e, fst run = Err e) /\
    (forall app_ns,
        In app_ns (scopes_created new) ->
        IsNil app_ns = true ->
        link_attempts new = [] /\ exists e, fst run = Err e).
Proof.
  intros run.
  destruct (Create_facts target_sdk_version class_loader is_shared dex_path
                         java_library_path java_permitted_path p)
    as (new & Hcalls & _ & Hr).
  fold run in Hcalls, Hr. exists new. split; [exact Hcalls|].
  destruct (fst run) as [h | e | message].
  - destruct Hr as (o & _ & _ & _ & _ & Hnil & _ & Hcreated & Hlinks).
    split.
    + intros before a after Hl Ha. rewrite Hlinks in Hl.
      assert (Hin : In a (map attempt_ok
                              (link_plan
                                 (effective_policy
                                    o target_sdk_version is_shared
                                    (declared_library_path java_library_path)
                                    (resolve_permitted_path
                                       java_permitted_path))
                                 (IsBridged h)))).
      { rewrite Hl. apply in_or_app. right. left. reflexivity. }
      apply attempt_ok_succeeded in Hin. congruence.
    + intros app_ns Hin Hn. rewrite Hcreated in Hin.
      destruct Hin as [<- | []]. congruence.
  - destruct Hr as (_ & _ & o & _ &
                    [(_ & _ & Hreq & Hl)
                    | (_ & h & _ & Hcreated &
                       [(Hnil & Hl)
                       | (Hnil & done & t & l & later & _ & Hl)])]).
    + split.
      * intros before a after H. rewrite Hl in H.
        destruct before; discriminate.
      * intros app_ns Hin.
        pose proof (scopes_created_length new) as Hlen.
        rewrite Hreq in Hlen. destruct (scopes_created new);
          [destruct Hin | discriminate].
    + split.
      * intros before a after H. rewrite Hl in H.
        destruct before; discriminate.
      * intros app_ns _ _. eauto.
    + split.
      * intros before a after H Ha. rewrite Hl in H.
        split; [exact (failed_attempt_last _ _ _ _ _ H Ha) | eauto].
      * intros app_ns Hin Hn. rewrite Hcreated in Hin.
        destruct Hin as [<- | []]. congruence.
  - destruct Hr as (_ & _ & Hreq & Hl & _). split.
    + intros before a after H. rewrite Hl in H. destruct before; discriminate.
    + intros app_ns Hin.
      pose proof (scopes_created_length new) as Hlen.
      rewrite Hreq in Hlen. destruct (scopes_created new);
        [destruct Hin | discriminate].
Qed.

Lemma find_namespace_none_id
      (namespaces : list (jweak * NativeLoaderNamespace)) class_loader :
  find_namespace namespaces class_loader = None ->
  ~ In (object_id class_loader)
       (map (fun entry => object_id (fst entry)) namespaces).
Proof.
  unfold find_namespace.
  induction namespaces as [|[w h] namespaces IH]; cbn [find map fst In];
    [intros _ []|].
  unfold IsSameObject at 1.
  destruct (Nat.eqb_spec (object_id w) (object_id class_loader)) as [E | E];
    [discriminate|].
  intros H [Hw | Hin]; [congruence | exact (IH H Hin)].
Qed.

(** The flag ends set only if the linker initialised its anonymous
    namespace. *)
Lemma InitPublicNamespace_set_flag library_path p :
  initialized_ (this (snd (InitPublicNamespace library_path p))) = true ->
  exists new path,
    calls (snd (InitPublicNamespace library_path p)) = (calls p ++ new)%list /\
    In (false, path, true) (boot_attempts new).
Proof.
  unfold InitPublicNamespace, bind, ask, call, fail, ret, set_initialized,
    record.
  cbn [fst snd this calls initialized_ namespaces_].
  set (anon_path := if NativeBridgeIsPathSupported (calls p) library_path
                    then None else Some library_path).
  destruct (android_init_anonymous_namespace
              (calls p) default_public_libraries anon_path) eqn:Hanon;
    cbn [negb fst snd this calls initialized_ namespaces_].
  - destruct (NativeBridgeInitialized _) eqn:Hb;
      cbn [fst snd this calls initialized_ namespaces_].
    + destruct (NativeBridgeInitAnonymousNamespace _ _ _) eqn:Hbridge;
        cbn [negb fst snd this calls initialized_ namespaces_];
        intros Hset; rewrite <- app_assoc; cbn [app];
        eexists; exists anon_path; (split; [reflexivity|]); left;
        reflexivity.
    + intros _. eexists. exists anon_path. split; [reflexivity|]. left.
      reflexivity.
  - discriminate.
Qed.

Lemma Initialize_calls p :
  exists new, calls (snd (Initialize p)) = (calls p ++ new)%list.
Proof.
  unfold Initialize, bind, get_initialized.
  destruct (initialized_ (this p)).
  - exists []. rewrite app_nil_r. reflexivity.
  - destruct (preload_run (Split default_public_libraries ":") p)
      as (_ & new & Hc & _).
    exists new. exact Hc.
Qed.

(** X14.  In every process that calls of [Initialize] and [Create] lead to
    from a fresh one, in any number and order and with any arguments: no
    class loader has two registry entries; looking up the class loader of
    an entry returns the handle of that entry; every handle of the
    registry is not nil and is one that the linker returned for a scope
    creation; and [initialized_] is set only if the linker has initialised
    its anonymous namespace. *)
Theorem reachable_invariants p :
  reachable p ->
  unique_entries (namespaces_ (this p)) /\
  (forall class_loader ns,
      In (class_loader, ns) (namespaces_ (this p)) ->
      find_namespace (namespaces_ (this p)) class_loader = Some ns /\
      IsNil ns = false /\
      In ns (scopes_created (calls p))) /\
  (initialized_ (this p) = true ->
   exists path, In (false, path, true) (boot_attempts (calls p))).
Proof.
  induction 1 as [| p Hreach (Hunique & Hentries & Hflag)
                  | p a Hreach (Hunique & Hentries & Hflag)].
  - split; [constructor|]. split; [intros ? ? []|]. discriminate.
  - rewrite Initialize_this.
    destruct (Initialize_calls p) as (new & ->).
    split; [exact Hunique|]. split.
    + intros class_loader ns Hin.
      destruct (Hentries class_loader ns Hin) as (Hf & Hn & Hc).
      rewrite scopes_created_app, in_app_iff. auto.
    + intros Hset. destruct (Hflag Hset) as (path & Hp).
      exists path. rewrite boot_attempts_app, in_app_iff. auto.
  - unfold Create_with.
    set (run := Create (arg_target_sdk_version a) (arg_class_loader a)
                       (arg_is_shared a) (arg_dex_path a)
                       (arg_java_library_path a)
                       (arg_java_permitted_path a) p).
    destruct (Create_facts (arg_target_sdk_version a) (arg_class_loader a)
                           (arg_is_shared a) (arg_dex_path a)
                           (arg_java_library_path a)
                           (arg_java_permitted_path a) p)
      as (new & Hcalls & _ & Hr).
    fold run in Hcalls, Hr.
    destruct (Create_shape (arg_target_sdk_version a) (arg_class_loader a)
                           (arg_is_shared a) (arg_dex_path a)
                           (arg_java_library_path a)
                           (arg_java_permitted_path a) p)
      as (boot & tail & Hcalls' & _ & _ & Hf & _ & Hinit & _).
    fold run in Hcalls', Hf.
    assert (Hflag' :
              initialized_ (this (snd run)) = true ->
              exists path, In (false, path, true)
                              (boot_attempts (calls (snd run)))).
    { rewrite Hf.
      destruct (boots (arg_java_library_path a) p &&
                returned (GetApkOriginFromDexPath (arg_dex_path a))) eqn:Hb.
      - apply andb_true_iff in Hb. destruct Hb as [Hb Ho].
        intros Hset.
        destruct (InitPublicNamespace_set_flag _ _ Hset)
          as (binit & path & Hc & Hin).
        rewrite (Hinit Hb Ho) in Hc. apply app_inv_head in Hc. subst binit.
        exists path. rewrite Hcalls', !boot_attempts_app, !in_app_iff. auto.
      - intros Hset. destruct (Hflag Hset) as (path & Hp).
        exists path. rewrite Hcalls, boot_attempts_app, in_app_iff. auto. }
    assert (Hkeep :
              namespaces_ (this (snd run)) = namespaces_ (this p) ->
              unique_entries (namespaces_ (this (snd run))) /\
              (forall class_loader ns,
                  In (class_loader, ns) (namespaces_ (this (snd run))) ->
                  find_namespace (namespaces_ (this (snd run))) class_loader
                  = Some ns /\
                  IsNil ns = false /\
                  In ns (scopes_created (calls (snd run))))).
    { intros ->. split; [exact Hunique|].
      intros class_loader ns Hin.
      destruct (Hentries class_loader ns Hin) as (Hfind & Hn & Hc).
      rewrite Hcalls, scopes_created_app, in_app_iff. auto. }
    destruct (fst run) as [app_ns | e | message].
    + destruct Hr as (o & _ & Hnone & Hns & _ & Hnil & _ & Hcreated & _).
      split; [|split; [|exact Hflag']].
      * unfold unique_entries. rewrite Hns, map_app. cbn [map fst].
        apply NoDup_app; [exact Hunique | repeat constructor; intros []|].
        intros id Hin [<- | []].
        exact (find_namespace_none_id _ _ Hnone Hin).
      * intros class_loader ns Hin. rewrite Hns in Hin.
        rewrite Hns, find_namespace_app, Hcalls, scopes_created_app,
          Hcreated.
        apply in_app_or in Hin. destruct Hin as [Hin | [Hin | []]].
        -- destruct (Hentries class_loader ns Hin) as (Hfind & Hn & Hc).
           rewrite Hfind. repeat split; auto. apply in_or_app. auto.
        -- injection Hin as <- <-.
           rewrite Hnone, find_namespace_single, IsSameObject_refl.
           repeat split; auto. apply in_or_app. right. left. reflexivity.
    + destruct Hr as (Hns & _). destruct (Hkeep Hns). auto.
    + destruct Hr as (Hns & _). destruct (Hkeep Hns). auto.
Qed.

(** X15.  [Create] never calls [dlopen]: the preloading of the public
    libraries is left to [Initialize].  And it asks the linker for at most
    one scope. *)
Theorem Create_never_preloads target_sdk_version class_loader is_shared
        dex_path java_library_path java_permitted_path p :
  let run := Create target_sdk_version class_loader is_shared dex_path
                    java_library_path java_permitted_path p in
  exists new,
    calls (snd run) = (calls p ++ new)%list /\
    preloads new = [] /\
    length (scopes_created new) <= 1.
Proof.
  intros run.
  destruct (Create_shape target_sdk_version class_loader is_shared dex_path
                         java_library_path java_permitted_path p)
    as (boot & tail & Hcalls & Hboot & _ & _ & _ & _ & Htail).
  fold run in Hcalls.
  exists (boot ++ tail)%list. split; [exact Hcalls|].
  rewrite preloads_append, scopes_created_app.
  destruct (is_boot_calls _ Hboot) as (_ & ->).
  destruct (boot_calls _ Hboot) as (_ & -> & _). cbn [app].
  destruct Htail as [[-> _] | (o & h & links & _ & -> & Hl)].
  - cbn. auto.
  - cbn [preloads scopes_created].
    destruct (is_link_calls _ Hl) as (_ & _ & -> & _ & ->). cbn. auto.
Qed.

Lemma GetApkOriginFromDexPath_abort dex_path message :
  GetApkOriginFromDexPath dex_path = Abort message ->
  message <> kAlreadyAssociated.
Proof.
  destruct dex_path as [s|]; [|discriminate].
  rewrite GetApkOriginFromDexPath_table.
  destruct (regex_search s kVendorDexPathRegex),
           (regex_search s kProductDexPathRegex); try discriminate.
  intros [= <-]. discriminate.
Qed.

(** X16.  [Create] aborts with "There is already a namespace associated
    with this classloader" only for a class loader that has a registry
    entry.  So a call that returned an error can be tried again: for a
    class loader without an entry, a call that follows a failed one for it
    does not abort on the duplicate check. *)
Theorem Create_retry_after_error target_sdk_version class_loader is_shared
        dex_path java_library_path java_permitted_path p :
  let run := Create target_sdk_version class_loader is_shared dex_path
                    java_library_path java_permitted_path p in
  (fst run = Abort kAlreadyAssociated ->
   exists ns,
     find_namespace (namespaces_ (this p)) class_loader = Some ns) /\
  (forall e sdk_version' is_shared' dex_path' library_path' permitted_path',
      find_namespace (namespaces_ (this p)) class_loader = None ->
      fst run = Err e ->
      fst (Create sdk_version' class_loader is_shared' dex_path'
                  library_path' permitted_path' (snd run))
      <> Abort kAlreadyAssociated).
Proof.
  intros run.
  assert (Hdup : forall sdk cl sh dex jl jp q,
             fst (Create sdk cl sh dex jl jp q) = Abort kAlreadyAssociated ->
             exists ns, find_namespace (namespaces_ (this q)) cl = Some ns).
  { intros sdk cl sh dex jl jp q Habort.
    destruct (Create_facts sdk cl sh dex jl jp q) as (new & _ & _ & Hr).
    rewrite Habort in Hr.
    destruct Hr as (_ & _ & _ & _ & [Hamb | (_ & o & ns & _ & Hfound)]).
    - now apply GetApkOriginFromDexPath_abort in Hamb.
    - exists ns. exact Hfound. }
  split; [apply Hdup|].
  intros e sdk' sh' dex' jl' jp' Hnone Herr Habort.
  destruct (Hdup _ _ _ _ _ _ _ Habort) as (ns & Hfound).
  destruct (Create_facts target_sdk_version class_loader is_shared dex_path
                         java_library_path java_permitted_path p)
    as (new & _ & _ & Hr).
  fold run in Hr. rewrite Herr in Hr. destruct Hr as (Hns & _).
  fold run in Hfound. rewrite Hns in Hfound. congruence.
Qed.




End FurtherRuns.

(* ================================================================= *)
(** ** The further properties on sample runs *)

Lemma GetApkOriginFromDexPath_join_witness :
  GetApkOriginFromDexPath (Some "/data/app/A/base.apk") =
    Ret APK_ORIGIN_DEFAULT /\
  GetApkOriginFromDexPath (Some "/vendor/app/V/V.apk") =
    Ret APK_ORIGIN_VENDOR /\
  GetApkOriginFromDexPath
    (Some "/data/app/A/base.apk:/vendor/app/V/V.apk") =
    Ret APK_ORIGIN_VENDOR /\
  GetApkOriginFromDexPath
    (Some "/vendor/app/V/V.apk:/data/app/A/base.apk") =
    Ret APK_ORIGIN_VENDOR.
Proof.
  split; [reflexivity|]. split; [reflexivity|].
  apply (proj1 (GetApkOriginFromDexPath_join
                  "/data/app/A/base.apk" "/vendor/app/V/V.apk")
               APK_ORIGIN_VENDOR);
    reflexivity.
Defined.

Lemma Initialize_stops_at_first_failure_witness :
  initialized_ (this (fresh_process (linker := Sample.linker true))) = false /\
  calls (snd (Initialize (linker := Sample.linker true)
                         (libs := Sample.libs) fresh_process)) =
    [EvDlopen "libandroid.so" true; EvDlopen "libc.so" true].
Proof.
  split; [reflexivity|].
  exact (Initialize_stops_at_first_failure
           (linker := Sample.linker true) (libs := Sample.libs)
           fresh_process eq_refl).
Defined.

(** A call for a non-empty library path in a process whose anonymous
    namespace is initialised. *)
Lemma Create_bootstraps_lazily_witness :
  let p := Sample.process_with true [] in
  let run := Create (libs := Sample.libs) 28 Sample.app_class_loader false
                    (Some "/data/app/A/base.apk") (Some "/data/app/A/lib")
                    None p in
  initialized_ (this p) = true /\
  boot_attempts (calls (snd run)) = [] /\
  initialized_ (this (snd run)) = initialized_ (this p).
Proof.
  intros p run. split; [reflexivity|].
  destruct (Create_bootstraps_lazily
              (linker := Sample.linker true) (libs := Sample.libs)
              28 Sample.app_class_loader false
              (Some "/data/app/A/base.apk") (Some "/data/app/A/lib") None p)
    as (new & Hcalls & Hskip & _).
  assert (Hnew : new = calls (snd run)) by (symmetry; exact Hcalls).
  subst new. apply Hskip. right. reflexivity.
Defined.

Lemma Initialize_after_Create_witness :
  let run := Create (linker := Sample.linker true) (libs := Sample.libs)
                    28 Sample.app_class_loader false
                    (Some "/data/app/A/base.apk") (Some "/data/app/A/lib")
                    None fresh_process in
  fst run = Ret 11 /\
  Initialize (libs := Sample.libs) (snd run) = (Ret tt, snd run).
Proof.
  intros run. split; [reflexivity|].
  apply (Initialize_after_Create
           (linker := Sample.linker true) (libs := Sample.libs)
           28 Sample.app_class_loader false
           (Some "/data/app/A/base.apk") (Some "/data/app/A/lib") None
           fresh_process 11);
    reflexivity.
Defined.

Lemma Create_keeps_declared_paths_witness :
  let run := Create (linker := Sample.linker true) (libs := Sample.libs)
                    28 Sample.app_class_loader false
                    (Some "/vendor/app/Radio/Radio.apk")
                    (Some "/vendor/app/Radio/lib") (Some "/vendor/overlay")
                    fresh_process in
  In ("vendor-classloader-namespace",
      "/vendor/app/Radio/lib:/vendor/lib64",
      "/data:/mnt/expand:/vendor/overlay:/vendor/lib64")
     (scope_requests (calls (snd run))) /\
  starts_with "/vendor/app/Radio/lib" "/vendor/app/Radio/lib:/vendor/lib64"
    = true /\
  starts_with "/data:/mnt/expand"
              "/data:/mnt/expand:/vendor/overlay:/vendor/lib64" = true.
Proof.
  intros run.
  assert (Hin : In ("vendor-classloader-namespace",
                    "/vendor/app/Radio/lib:/vendor/lib64",
                    "/data:/mnt/expand:/vendor/overlay:/vendor/lib64")
                   (scope_requests (calls (snd run))))
    by (left; reflexivity).
  split; [exact Hin|].
  destruct (Create_keeps_declared_paths
              (linker := Sample.linker true) (libs := Sample.libs)
              28 Sample.app_class_loader false
              (Some "/vendor/app/Radio/Radio.apk")
              (Some "/vendor/app/Radio/lib") (Some "/vendor/overlay")
              fresh_process)
    as (new & Hcalls & Hpaths).
  assert (Hnew : new = calls (snd run)) by (symmetry; exact Hcalls).
  subst new. destruct (Hpaths _ _ _ Hin) as (Hl & Hp & _).
  split; [exact Hl | exact Hp].
Defined.

(** A first call for a product app that targets SDK 30, from a fresh
    process. *)
Lemma Create_unbundled_product_policy_witness :
  let run := Create (linker := Sample.linker true) (libs := Sample.libs)
                    30 Sample.app_class_loader false
                    (Some "/system/product/app/Notes/Notes.apk")
                    (Some "/system/product/app/N/lib") None fresh_process in
  GetApkOriginFromDexPath (Some "/system/product/app/Notes/Notes.apk") =
    Ret APK_ORIGIN_PRODUCT /\
  (29 < 30)%N /\
  find_namespace
    (namespaces_ (this (fresh_process (linker := Sample.linker true))))
    Sample.app_class_loader = None /\
  fst (InitPublicNamespace (linker := Sample.linker true)
                           (libs := Sample.libs)
                           "/system/product/app/N/lib" fresh_process) =
    Ret tt /\
  effective_policy (libs := Sample.libs) APK_ORIGIN_PRODUCT 30 false
                   "/system/product/app/N/lib"
                   "/data:/mnt/expand" =
  {| library_path :=
       "/system/product/app/N/lib:/product/lib64:/system/product/lib64";
     permitted_path :=
       "/data:/mnt/expand:/product/lib64:/system/product/lib64";
     system_exposed_libraries := "libandroid.so:libc.so:libvndksupport.so";
     namespace_name := "vendor-classloader-namespace";
     unbundled_vendor_or_product_app := true |} /\
  scope_requests (calls (snd run)) =
    [("vendor-classloader-namespace",
      "/system/product/app/N/lib:/product/lib64:/system/product/lib64",
      "/data:/mnt/expand:/product/lib64:/system/product/lib64")] /\
  exists ok more,
    link_attempts (calls (snd run)) =
      (1, "libandroid.so:libc.so:libvndksupport.so", ok) :: more.
Proof.
  intros run.
  assert (Hsdk : (29 < 30)%N) by lia.
  destruct (Create_unbundled_product_policy
              (linker := Sample.linker true) (libs := Sample.libs)
              30 Sample.app_class_loader
              (Some "/system/product/app/Notes/Notes.apk")
              (Some "/system/product/app/N/lib") None fresh_process
              eq_refl Hsdk)
    as (Hpolicy & new & Hcalls & _ & _ & _ & Hreach).
  assert (Hnew : new = calls (snd run)) by (symmetry; exact Hcalls).
  subst new.
  destruct (Hreach eq_refl (or_intror eq_refl))
    as (Hreq & app_ns & Hcreated & Hlinks).
  assert (Ha : [11] = [app_ns]) by exact Hcreated.
  injection Ha as <-.
  split; [reflexivity|]. split; [exact Hsdk|].
  split; [reflexivity|]. split; [reflexivity|].
  split; [exact Hpolicy|]. split; [exact Hreq | exact Hlinks].
Defined.


Lemma Create_scope_settings_witness :
  let run := Create (linker := Sample.linker true) (libs := Sample.libs)
                    23 Sample.app_class_loader true
                    (Some "/data/app/A/base.apk") (Some "/data/app/A/lib")
                    None fresh_process in
  fst run = Ret 11 /\
  scope_settings (calls (snd run)) <> [].
Proof.
  intros run. split; [reflexivity|].
  destruct (Create_scope_settings
              (linker := Sample.linker true) (libs := Sample.libs)
              23 Sample.app_class_loader true
              (Some "/data/app/A/base.apk") (Some "/data/app/A/lib")
              None fresh_process)
    as (new & parent_ns & Hcalls & _ & _ & Hret).
  assert (Hnew : new = calls (snd run)) by (symmetry; exact Hcalls).
  subst new. apply (Hret 11). reflexivity.
Defined.

(** The shared loader gets its namespace first; then [Initialize] runs and
    the boot class loader gets a namespace; then the application class
    loader, a child of the shared loader, gets its own. *)
Lemma Create_child_of_created_witness :
  let first := Create (linker := Sample.linker true) (libs := Sample.libs)
                      28 Sample.shared_loader true None None None
                      fresh_process in
  let q := snd (Create_with
                  (linker := Sample.linker true) (libs := Sample.libs)
                  {| arg_target_sdk_version := 30;
                     arg_class_loader := Sample.boot_class_loader;
                     arg_is_shared := true;
                     arg_dex_path := None;
                     arg_java_library_path := Some "/system/lib64";
                     arg_java_permitted_path := None |}
                  (snd (Initialize (libs := Sample.libs) (snd first)))) in
  let second := Create (linker := Sample.linker true) (libs := Sample.libs)
                       28 Sample.app_class_loader false
                       (Some "/data/app/A/base.apk") None None q in
  fst first = Ret 10 /\
  reachable_from (libs := Sample.libs) (snd first) q /\
  fst second = Ret 21 /\
  exists new,
    calls (snd second) = (calls q ++ new)%list /\
    scope_settings new = [(Some 10, false, false)].
Proof.
  intros first q second.
  assert (Hreach : reachable_from (libs := Sample.libs) (snd first) q)
    by (apply From_Create; apply From_Initialize; apply From_start).
  split; [reflexivity|]. split; [exact Hreach|]. split; [reflexivity|].
  destruct (Create_child_of_created
              (linker := Sample.linker true) (libs := Sample.libs)
              28 Sample.shared_loader true None None None fresh_process 10 q
              4 28 false (Some "/data/app/A/base.apk") None None
              eq_refl Hreach)
    as (new & Hcalls & Hsettings & Hret).
  exists new. split; [exact Hcalls|].
  destruct Hsettings as [Hnone | Hsome]; [|exact Hsome].
  exfalso. exact (Hret 21 eq_refl Hnone).
Defined.

Lemma Create_links_in_order_witness :
  let run := Create (linker := Sample.linker true) (libs := Sample.libs)
                    28 Sample.app_class_loader false
                    (Some "/vendor/app/Radio/Radio.apk")
                    (Some "/vendor/app/Radio/lib") None fresh_process in
  GetApkOriginFromDexPath (Some "/vendor/app/Radio/Radio.apk") =
    Ret APK_ORIGIN_VENDOR /\
  fst run = Ret 11 /\
  link_attempts (calls (snd run)) =
    [(1, "libandroid.so:libc.so:libvndksupport.so", true);
     (2, "libicuuc.so", true);
     (3, "libcutils.so", true);
     (0, "libvendorpub.so", true)].
Proof.
  intros run. split; [reflexivity|]. split; [reflexivity|].
  destruct (Create_links_in_order
              (linker := Sample.linker true) (libs := Sample.libs)
              28 Sample.app_class_loader false
              (Some "/vendor/app/Radio/Radio.apk")
              (Some "/vendor/app/Radio/lib") None fresh_process
              APK_ORIGIN_VENDOR 11 eq_refl eq_refl)
    as (new & Hcalls & Hlinks).
  assert (Hnew : new = calls (snd run)) by (symmetry; exact Hcalls).
  subst new. exact Hlinks.
Defined.

(** The link to the "runtime" namespace fails: it is the last call. *)
Lemma Create_stops_at_first_failure_witness :
  let run := Create (linker := linker_without_runtime_link)
                    (libs := Sample.libs)
                    28 Sample.app_class_loader false
                    (Some "/data/app/A/base.apk") None None fresh_process in
  link_attempts (calls (snd run)) =
    ([(1, "libandroid.so:libc.so:libextra.so", true)] ++
     (2, "libicuuc.so", false) :: [])%list /\
  exists e, fst run = Err e.
Proof.
  intros run.
  assert (Hl : link_attempts (calls (snd run)) =
               ([(1, "libandroid.so:libc.so:libextra.so", true)] ++
                (2, "libicuuc.so", false) :: [])%list) by reflexivity.
  split; [exact Hl|].
  destruct (Create_stops_at_first_failure
              (linker := linker_without_runtime_link) (libs := Sample.libs)
              28 Sample.app_class_loader false
              (Some "/data/app/A/base.apk") None None fresh_process)
    as (new & Hcalls & Hfail & _).
  assert (Hnew : new = calls (snd run)) by (symmetry; exact Hcalls).
  subst new. exact (proj2 (Hfail _ _ _ Hl eq_refl)).
Defined.

Lemma reachable_invariants_witness :
  let p := snd (Create_with
                  (linker := Sample.linker true) (libs := Sample.libs)
                  {| arg_target_sdk_version := 28;
                     arg_class_loader := Sample.app_class_loader;
                     arg_is_shared := false;
                     arg_dex_path := Some "/data/app/A/base.apk";
                     arg_java_library_path := Some "/data/app/A/lib";
                     arg_java_permitted_path := None |}
                  (snd (Initialize (libs := Sample.libs) fresh_process))) in
  reachable (libs := Sample.libs) p /\
  namespaces_ (this p) = [(Sample.app_class_loader, 13)] /\
  unique_entries (namespaces_ (this p)).
Proof.
  intros p.
  assert (Hreach : reachable (libs := Sample.libs) p)
    by (apply Reach_Create; apply Reach_Initialize; apply Reach_fresh).
  split; [exact Hreach|]. split; [reflexivity|].
  exact (proj1 (reachable_invariants p Hreach)).
Defined.

(** The anonymous namespace fails to initialise; the call can be tried
    again. *)
Lemma Create_retry_after_error_witness :
  let run := Create (linker := Sample.linker false) (libs := Sample.libs)
                    28 Sample.app_class_loader false
                    (Some "/data/app/A/base.apk") (Some "/data/app/A/lib")
                    None fresh_process in
  find_namespace (namespaces_ (this (fresh_process
                                       (linker := Sample.linker false))))
                 Sample.app_class_loader = None /\
  fst run = Err "dlerror" /\
  fst (Create (libs := Sample.libs) 28 Sample.app_class_loader false
              (Some "/data/app/A/base.apk") None None (snd run))
  <> Abort kAlreadyAssociated.
Proof.
  intros run. split; [reflexivity|]. split; [reflexivity|].
  apply (proj2 (Create_retry_after_error
                  (linker := Sample.linker false) (libs := Sample.libs)
                  28 Sample.app_class_loader false
                  (Some "/data/app/A/base.apk") (Some "/data/app/A/lib")
                  None fresh_process)
               "dlerror" 28%N false (Some "/data/app/A/base.apk") None None);
    reflexivity.
Defined.

